(** * mcp-server-eol: version resolution and temporal status evaluation

    A shallow embedding of [src/mcp_server_eol/client.py]: the Pydantic
    models [CycleInfo], [ProductInfo], [CycleDetails], [SupportStatus] and
    the methods [get_product_versions], [get_cycle_details],
    [check_support_status], [_is_version_supported], [_is_version_eol] of
    [EndOfLifeClient], followed by the properties of the resolver and of the
    evaluator. *)

From Stdlib Require Import ZArith String Ascii List Bool Lia.
From stdpp Require Import base option gmap strings.
Import ListNotations.

Local Open Scope string_scope.
Local Open Scope Z_scope.

(** ** Exceptions

    Python control flow with exceptions is threaded through an error monad.
    Only the exception classes that the client can meet are listed. *)

Inductive exn : Type :=
  | ValueError                          (* datetime.fromisoformat on a bad string *)
  | TypeError                           (* bad call: duplicate keyword, ** on a non-mapping *)
  | ValidationError                     (* pydantic: a model could not be built *)
  | HTTPStatusError (status_code : Z)   (* httpx: response.raise_for_status() *)
  | TransportError.                     (* httpx: the request itself failed *)

Inductive Exc (A : Type) : Type :=
  | Return (a : A)
  | Raise (e : exn).
Arguments Return {A} a.
Arguments Raise {A} e.

#[global] Instance Exc_ret : MRet Exc := fun A a => Return a.

#[global] Instance Exc_bind : MBind Exc := fun A B k m =>
  match m with
  | Return a => k a
  | Raise e => Raise e
  end.

(** [try: body except <classes>: handler]: the handler runs when the body
    raises an exception of one of the listed classes, otherwise the exception
    goes on to the caller. *)
Definition try_except {A : Type} (body : Exc A) (classes : exn -> bool)
    (handler : exn -> Exc A) : Exc A :=
  match body with
  | Return a => Return a
  | Raise e => if classes e then handler e else Raise e
  end.

(** [except (ValueError, TypeError)] *)
Definition ValueError_or_TypeError (e : exn) : bool :=
  match e with
  | ValueError | TypeError => true
  | _ => false
  end.

(** [except httpx.HTTPStatusError] *)
Definition is_HTTPStatusError (e : exn) : bool :=
  match e with
  | HTTPStatusError _ => true
  | _ => false
  end.

(** [except Exception as e: logger.error(...); raise]: the handler logs and
    raises the same exception again, so the outcome of the body is kept. *)
Definition log_and_reraise {A : Type} (body : Exc A) : Exc A :=
  try_except body (fun _ => true) (fun e => Raise e).

(** ** Calendar dates ([datetime.date]) *)

Record date : Type := mkdate { year : Z; month : Z; day : Z }.

(** Python orders dates by (year, month, day). *)
Definition date_cmp (a b : date) : comparison :=
  match year a ?= year b with
  | Eq => match month a ?= month b with
          | Eq => day a ?= day b
          | c => c
          end
  | c => c
  end.

(** [a <= b] on dates *)
Definition date_le (a b : date) : bool :=
  match date_cmp a b with Gt => false | _ => true end.

(** [a > b] on dates *)
Definition date_gt (a b : date) : bool :=
  match date_cmp a b with Gt => true | _ => false end.

Definition is_leap (y : Z) : bool :=
  (y mod 4 =? 0) && (negb (y mod 100 =? 0) || (y mod 400 =? 0)).

Definition days_in_month (y m : Z) : Z :=
  if m =? 2 then (if is_leap y then 29 else 28)
  else if (m =? 4) || (m =? 6) || (m =? 9) || (m =? 11) then 30
  else 31.

(** The dates a [datetime.date] object can hold: year 1 to 9999. *)
Definition date_valid (d : date) : bool :=
  (1 <=? year d) && (year d <=? 9999) &&
  (1 <=? month d) && (month d <=? 12) &&
  (1 <=? day d) && (day d <=? days_in_month (year d) (month d)).

(** [d + timedelta(days=1)]; past [date.max] Python raises OverflowError,
    here [None]. *)
Definition next_day (d : date) : option date :=
  if day d <? days_in_month (year d) (month d)
  then Some (mkdate (year d) (month d) (day d + 1))
  else if month d <? 12
  then Some (mkdate (year d) (month d + 1) 1)
  else if year d <? 9999
  then Some (mkdate (year d + 1) 1 1)
  else None.

(** [datetime.datetime]: a date, a time of day and an optional UTC offset in
    seconds; [.date()] keeps the date fields as they are. *)
Record datetime : Type := mkdatetime {
  dt_date : date;
  dt_hour : Z;
  dt_minute : Z;
  dt_second : Z;
  dt_utcoffset : option Z
}.

(** ** Strings *)

(** [s.replace(old, new)] for a one-character [old]: every occurrence is
    replaced. *)
Fixpoint str_replace (old : ascii) (new : string) (s : string) : string :=
  match s with
  | EmptyString => EmptyString
  | String c rest =>
      if Ascii.eqb c old
      then String.append new (str_replace old new rest)
      else String c (str_replace old new rest)
  end.

(** [s.startswith(p)] *)
Definition startswith (s p : string) : bool := String.prefix p s.

(** ** The models *)

(** A value of [Union[str, date, bool]]. *)
Inductive str_date_bool : Type :=
  | OfBool (b : bool)
  | OfStr (s : string)
  | OfDate (d : date).

(** A value of [Union[str, date]]. *)
Inductive str_date : Type :=
  | SdStr (s : string)
  | SdDate (d : date).

(** [class CycleInfo(BaseModel)]; [Optional[...]] fields default to [None]. *)
Record CycleInfo : Type := mkCycleInfo {
  cycle : string;
  release_date : option str_date;
  eol : option str_date_bool;
  latest : option string;
  latest_release_date : option str_date;
  lts : option str_date_bool;
  support : option str_date_bool
}.

(** [class ProductInfo(BaseModel)] *)
Record ProductInfo : Type := mkProductInfo {
  pi_product : string;
  versions : list CycleInfo;
  pi_count : Z
}.

(** [class SupportStatus(BaseModel)] *)
Record SupportStatus : Type := mkSupportStatus {
  ss_product : string;
  ss_version : string;
  found : bool;
  cycle_info : option CycleInfo;
  is_supported : bool;
  is_eol : bool
}.

(** [class CycleDetails(BaseModel)] *)
Record CycleDetails : Type := mkCycleDetails {
  cd_product : string;
  cd_cycle : string;
  details : CycleInfo
}.

(** ** Catalog documents

    What [response.json()] hands to the client: a raw cycle mapping is a
    dict from keys to JSON scalars (the catalog uses null, booleans and
    strings under the keys of [CycleInfo]; [VDate] is for callers that pass
    [date] objects), a document is a list of such mappings or one mapping. *)

Inductive value : Type :=
  | VNone
  | VBool (b : bool)
  | VStr (s : string)
  | VDate (d : date).

Inductive document : Type :=
  | DocList (items : list (gmap string value))
  | DocMapping (m : gmap string value).

(** [class EndOfLifeClient]: [self.base_url], and [self._client] seen through
    the three lines every method runs on it,
    [response = await self._client.get(url); response.raise_for_status();
    response.json()], which give the document or raise (an
    [HTTPStatusError] carrying the status code, or a transport failure). *)
Record EndOfLifeClient : Type := mkEndOfLifeClient {
  base_url : string;
  _client : string -> Exc document
}.

(** ** Building a [CycleInfo] from keyword arguments (pydantic validation)

    The field declarations of [CycleInfo] read as pydantic 2 validates them
    on Python values: a [str] field takes strings only, and a union keeps a
    value that is already an instance of one of its members. *)

(** [cycle: str = Field(...)]: required, and a string. *)
Definition validate_required_str (o : option value) : Exc string :=
  match o with
  | Some (VStr s) => Return s
  | _ => Raise ValidationError
  end.

(** [Optional[str] = Field(None)] *)
Definition validate_optional_str (o : option value) : Exc (option string) :=
  match o with
  | None | Some VNone => Return None
  | Some (VStr s) => Return (Some s)
  | Some _ => Raise ValidationError
  end.

(** [Optional[Union[str, date]] = Field(None)] *)
Definition validate_optional_str_date (o : option value) : Exc (option str_date) :=
  match o with
  | None | Some VNone => Return None
  | Some (VStr s) => Return (Some (SdStr s))
  | Some (VDate d) => Return (Some (SdDate d))
  | Some (VBool _) => Raise ValidationError
  end.

(** [Optional[Union[str, date, bool]] = Field(None)] (and [lts], whose union
    lists the same three types): every scalar is an instance of one member
    of the union and is kept as it is. *)
Definition validate_optional_str_date_bool (o : option value)
    : Exc (option str_date_bool) :=
  match o with
  | None | Some VNone => Return None
  | Some (VBool b) => Return (Some (OfBool b))
  | Some (VStr s) => Return (Some (OfStr s))
  | Some (VDate d) => Return (Some (OfDate d))
  end.

(** [Field(None, alias=...)] under [populate_by_name = True]: the alias is
    looked up first, then the field's own name. *)
Definition by_alias_or_name (kwargs : gmap string value) (alias name : string)
    : option value :=
  match kwargs !! alias with
  | Some v => Some v
  | None => kwargs !! name
  end.

(** [CycleInfo( **kwargs )]; keys that name no field are ignored. *)
Definition CycleInfo_init (kwargs : gmap string value) : Exc CycleInfo :=
  c ← validate_required_str (kwargs !! "cycle");
  rd ← validate_optional_str_date (by_alias_or_name kwargs "releaseDate" "release_date");
  e ← validate_optional_str_date_bool (kwargs !! "eol");
  l ← validate_optional_str (kwargs !! "latest");
  lrd ← validate_optional_str_date
          (by_alias_or_name kwargs "latestReleaseDate" "latest_release_date");
  lt ← validate_optional_str_date_bool (kwargs !! "lts");
  s ← validate_optional_str_date_bool (kwargs !! "support");
  Return (mkCycleInfo c rd e l lrd lt s).

(** ** Version resolution: the loop of [check_support_status] *)

(** The test of the loop body:
    [cycle.cycle == version or cycle.latest == version or
     str(cycle.cycle).startswith(version)]. *)
Definition cycle_matches (version : string) (c : CycleInfo) : bool :=
  String.eqb (cycle c) version
  || match latest c with
     | Some l => String.eqb l version
     | None => false
     end
  || startswith (cycle c) version.

(** [for cycle in product_info.versions: if <test>: return ...]: the record
    the loop returns on, [None] when the loop runs to its end. *)
Fixpoint first_matching_cycle (version : string) (vs : list CycleInfo)
    : option CycleInfo :=
  match vs with
  | [] => None
  | c :: rest =>
      if cycle_matches version c then Some c
      else first_matching_cycle version rest
  end.

Section Client.

(** [datetime.fromisoformat], the standard library's parser; [None] stands
    for the [ValueError] it raises on a string it does not accept. *)
Variable fromisoformat : string -> option datetime.

Definition datetime_fromisoformat (s : string) : Exc datetime :=
  match fromisoformat s with
  | Some dt => Return dt
  | None => Raise ValueError
  end.

(** [datetime.fromisoformat(x.replace('Z', '+00:00')).date()] *)
Definition end_date_of_str (x : string) : Exc date :=
  dt ← datetime_fromisoformat (str_replace "Z"%char "+00:00" x);
  Return (dt_date dt).

(** [def _is_version_supported(self, cycle_info)], with [date.today()]
    passed in as [today]. *)
Definition _is_version_supported (cycle_info : CycleInfo) (today : date)
    : Exc bool :=
  (* Check EOL date as fallback *)
  let eol_fallback : Exc bool :=
    match eol cycle_info with
    | None => Return false
    | Some (OfBool eol_date) => Return (negb eol_date)
    | Some (OfStr eol_date) =>
        try_except
          (eol_end ← end_date_of_str eol_date;
           Return (date_le today eol_end))
          ValueError_or_TypeError
          (fun _ => Return false)
    | Some (OfDate eol_date) =>
        try_except (Return (date_le today eol_date))
          ValueError_or_TypeError
          (fun _ => Return false)
    end in
  (* Check support date *)
  match support cycle_info with
  | None => eol_fallback
  | Some (OfBool support_date) => Return support_date
  | Some (OfStr support_date) =>
      try_except
        (support_end ← end_date_of_str support_date;
         Return (date_le today support_end))
        ValueError_or_TypeError
        (fun _ => eol_fallback)
  | Some (OfDate support_date) =>
      try_except (Return (date_le today support_date))
        ValueError_or_TypeError
        (fun _ => eol_fallback)
  end.

(** [def _is_version_eol(self, cycle_info)] *)
Definition _is_version_eol (cycle_info : CycleInfo) (today : date) : Exc bool :=
  match eol cycle_info with
  | None => Return false
  | Some (OfBool eol_date) => Return eol_date
  | Some (OfStr eol_date) =>
      try_except
        (eol_end ← end_date_of_str eol_date;
         Return (date_gt today eol_end))
        ValueError_or_TypeError
        (fun _ => Return false)
  | Some (OfDate eol_date) =>
      try_except (Return (date_gt today eol_date))
        ValueError_or_TypeError
        (fun _ => Return false)
  end.

(** The loop [for version_data in versions_data:
    cycle_info = CycleInfo( **version_data ); cycles.append(cycle_info)]. *)
Fixpoint append_cycles (cycles : list CycleInfo)
    (versions_data : list (gmap string value)) : Exc (list CycleInfo) :=
  match versions_data with
  | [] => Return cycles
  | version_data :: rest =>
      cycle_info ← CycleInfo_init version_data;
      append_cycles (cycles ++ [cycle_info]) rest
  end.

(** [async def get_product_versions(self, product)]. Iterating over a dict
    gives its keys, and [CycleInfo( **key )] on a string is a TypeError. *)
Definition get_product_versions (self : EndOfLifeClient) (product : string)
    : Exc ProductInfo :=
  log_and_reraise
    (versions_data ← _client self (base_url self +:+ "/" +:+ product +:+ ".json");
     cycles ← match versions_data with
              | DocList items => append_cycles [] items
              | DocMapping m =>
                  if decide (m = ∅) then Return [] else Raise TypeError
              end;
     Return (mkProductInfo product cycles (Z.of_nat (length cycles)))).

(** [async def get_cycle_details(self, product, cycle)]. A [cycle] key in
    the fetched mapping clashes with the keyword [cycle=cycle]. *)
Definition get_cycle_details (self : EndOfLifeClient) (product cycle : string)
    : Exc CycleDetails :=
  log_and_reraise
    (cycle_data ← _client self
       (base_url self +:+ "/" +:+ product +:+ "/" +:+ cycle +:+ ".json");
     cycle_info ← match cycle_data with
                  | DocMapping m =>
                      match m !! "cycle" with
                      | Some _ => Raise TypeError
                      | None => CycleInfo_init (<["cycle" := VStr cycle]> m)
                      end
                  | DocList _ => Raise TypeError
                  end;
     Return (mkCycleDetails product cycle cycle_info)).

(** [SupportStatus(product=..., version=..., found=True, cycle_info=c,
    is_supported=self._is_version_supported(c),
    is_eol=self._is_version_eol(c))] *)
Definition found_status (product version : string) (c : CycleInfo)
    (today : date) : Exc SupportStatus :=
  sup ← _is_version_supported c today;
  e ← _is_version_eol c today;
  Return (mkSupportStatus product version true (Some c) sup e).

(** [async def check_support_status(self, product, version)] *)
Definition check_support_status (self : EndOfLifeClient)
    (product version : string) (today : date) : Exc SupportStatus :=
  log_and_reraise
    (try_except
       (* First, try to get the specific cycle *)
       (cycle_details ← get_cycle_details self product version;
        found_status product version (details cycle_details) today)
       is_HTTPStatusError
       (fun e =>
          match e with
          | HTTPStatusError 404 =>
              (* If specific version not found, search through all versions *)
              product_info ← get_product_versions self product;
              match first_matching_cycle version (versions product_info) with
              | Some c => found_status product version c today
              | None =>
                  (* Version not found *)
                  Return (mkSupportStatus product version false None false true)
              end
          | _ => Raise e
          end)).

End Client.

(** ** The product list and the search *)

(** [class AllProductsResult(BaseModel)] *)
Record AllProductsResult : Type := mkAllProductsResult {
  products : list string;
  apr_count : Z
}.

(** [class SearchResult(BaseModel)] *)
Record SearchResult : Type := mkSearchResult {
  results : list string;
  sr_count : Z;
  sr_query : string
}.

(** The client with both kinds of document it reads: [cycles] for the
    documents of cycle mappings, and [names_json] for [self._client] on
    [all.json], whose JSON is a list of product names (again the three lines
    get, [raise_for_status], [json()]). *)
Record CatalogClient : Type := mkCatalogClient {
  cycles : EndOfLifeClient;
  names_json : string -> Exc (list string)
}.

(** [sub in s] on strings: [sub] occurs in [s] at some position. *)
Fixpoint str_contains (s sub : string) : bool :=
  match s with
  | EmptyString => String.prefix sub EmptyString
  | String _ rest => String.prefix sub s || str_contains rest sub
  end.

(** [async def get_all_products(self)] *)
Definition get_all_products (self : CatalogClient) : Exc AllProductsResult :=
  log_and_reraise
    (products ← names_json self (base_url (cycles self) +:+ "/all.json");
     Return (mkAllProductsResult products (Z.of_nat (length products)))).

Section Search.

(** [str.lower] *)
Variable lower : string -> string.

(** [async def search_products(self, query)] *)
Definition search_products (self : CatalogClient) (query : string)
    : Exc SearchResult :=
  log_and_reraise
    (all_products ← get_all_products self;
     let query_lower := lower query in
     let matching_products :=
       List.filter (fun product => str_contains (lower product) query_lower)
         (products all_products) in
     Return (mkSearchResult matching_products
               (Z.of_nat (length matching_products)) query)).

End Search.

(** ** The tool surface of [server.py] *)

(** One entry of a tool's [inputSchema["properties"]]. *)
Record Property : Type := mkProperty {
  prop_name : string;
  prop_type : string;
  prop_description : string
}.

(** [Tool(name=..., description=..., inputSchema={"type": "object",
    "properties": ..., "required": ...})] *)
Record Tool : Type := mkTool {
  tool_name : string;
  tool_description : string;
  tool_properties : list Property;
  tool_required : list string
}.

(** [async def handle_list_tools()] *)
Definition handle_list_tools : list Tool :=
  [ mkTool "eol_get_all_products"
      "Get a list of all products tracked by endoflife.date"
      [] [];
    mkTool "eol_get_product_versions"
      "Get all versions/cycles for a specific product"
      [mkProperty "product" "string"
         "The product name (e.g., 'nodejs', 'python', 'ubuntu')"]
      ["product"];
    mkTool "eol_get_cycle_details"
      "Get detailed information about a specific product cycle/version"
      [mkProperty "product" "string" "The product name";
       mkProperty "cycle" "string" "The cycle/version identifier"]
      ["product"; "cycle"];
    mkTool "eol_search_products"
      "Search for products by name (case-insensitive partial match)"
      [mkProperty "query" "string" "Search query to find products"]
      ["query"];
    mkTool "eol_check_support_status"
      "Check if a specific product version is still supported"
      [mkProperty "product" "string" "The product name";
       mkProperty "version" "string" "The version to check"]
      ["product"; "version"] ].

(** What the server raises or catches: its own [RuntimeError] and
    [ValueError] with their messages, and the exceptions of the client. *)
Inductive failure : Type :=
  | RuntimeError (msg : string)
  | ValueErrorWith (msg : string)
  | FromClient (e : exn).

Inductive Outcome (A : Type) : Type :=
  | Done (a : A)
  | Failed (f : failure).
Arguments Done {A} a.
Arguments Failed {A} f.

(** The text of a [TextContent], named by the value whose JSON it is:
    [result.model_dump_json(indent=2)] of a model, or
    [json.dumps({"error": str(e), "tool": name, "arguments": arguments})]. *)
Inductive json_text : Type :=
  | DumpAllProducts (r : AllProductsResult)
  | DumpProductInfo (r : ProductInfo)
  | DumpCycleDetails (r : CycleDetails)
  | DumpSearchResult (r : SearchResult)
  | DumpSupportStatus (r : SupportStatus)
  | DumpError (error : failure) (tool : string) (arguments : gmap string string).

(** [TextContent(type=..., text=...)] *)
Record TextContent : Type := mkTextContent {
  tc_type : string;
  tc_text : json_text
}.

(** [x = arguments.get(key)] followed by the test [if not x]: a missing key
    and an empty string both count as not given. The arguments are strings,
    as every [inputSchema] declares them. *)
Definition given (arguments : gmap string string) (key : string)
    : option string :=
  match arguments !! key with
  | Some s => if String.eqb s "" then None else Some s
  | None => None
  end.

(** A call of a client method inside the [try] of [handle_call_tool]. *)
Definition dump_of {A : Type} (r : Exc A) (dump : A -> json_text)
    : Outcome json_text :=
  match r with
  | Return a => Done (dump a)
  | Raise e => Failed (FromClient e)
  end.

Section Server.

Variable fromisoformat : string -> option datetime.
Variable lower : string -> string.

(** The body of the [try] in [handle_call_tool]: the text to return, or the
    exception that reaches [except Exception]. *)
Definition call_tool_body (eol_client : CatalogClient) (name : string)
    (arguments : gmap string string) (today : date) : Outcome json_text :=
  if String.eqb name "eol_get_all_products" then
    dump_of (get_all_products eol_client) DumpAllProducts
  else if String.eqb name "eol_get_product_versions" then
    match given arguments "product" with
    | Some product =>
        dump_of (get_product_versions (cycles eol_client) product)
          DumpProductInfo
    | None => Failed (ValueErrorWith "Product name is required")
    end
  else if String.eqb name "eol_get_cycle_details" then
    match given arguments "product", given arguments "cycle" with
    | Some product, Some cycle =>
        dump_of (get_cycle_details (cycles eol_client) product cycle)
          DumpCycleDetails
    | _, _ => Failed (ValueErrorWith "Both product and cycle are required")
    end
  else if String.eqb name "eol_search_products" then
    match given arguments "query" with
    | Some query =>
        dump_of (search_products lower eol_client query) DumpSearchResult
    | None => Failed (ValueErrorWith "Search query is required")
    end
  else if String.eqb name "eol_check_support_status" then
    match given arguments "product", given arguments "version" with
    | Some product, Some version =>
        dump_of (check_support_status fromisoformat (cycles eol_client)
                   product version today)
          DumpSupportStatus
    | _, _ => Failed (ValueErrorWith "Both product and version are required")
    end
  else Failed (ValueErrorWith ("Unknown tool: " +:+ name)).

(** [async def handle_call_tool(name, arguments)], with the global
    [eol_client] passed in ([None] before [main] has set it). *)
Definition handle_call_tool (eol_client : option CatalogClient) (name : string)
    (arguments : gmap string string) (today : date)
    : Outcome (list TextContent) :=
  match eol_client with
  | None => Failed (RuntimeError "Client not initialized")
  | Some client =>
      match call_tool_body client name arguments today with
      | Done text => Done [mkTextContent "text" text]
      | Failed e =>
          Done [mkTextContent "text" (DumpError e name arguments)]
      end
  end.

End Server.

(** ** The date helper of the temporal test ([tests/test_temporal.py]) *)

(** A value read back from the JSON of a [CycleInfo] field. *)
Inductive json_scalar : Type :=
  | JNull
  | JBool (b : bool)
  | JString (s : string).

Section TemporalTest.

Variable fromisoformat : string -> option datetime.

(** [def parse_date_safely(date_str)] *)
Definition parse_date_safely (date_str : json_scalar) : Exc (option date) :=
  match date_str with
  | JNull => Return None
  | JBool false => Return None
  | JBool true => Return None
  | JString s =>
      if String.eqb s "" || String.eqb s "Unknown" then Return None
      else
        try_except
          (d ← end_date_of_str fromisoformat s; Return (Some d))
          ValueError_or_TypeError
          (fun _ => Return None)
  end.

End TemporalTest.

(** ** A concrete parser

    An instance of the parser for the layouts the catalog emits,
    [YYYY-MM-DD] and [YYYY-MM-DD?HH:MM:SS] with an optional [+HH:MM] or
    [-HH:MM] offset ([?] is any one separator character). It is used to run
    the model on concrete records; the properties below hold for every
    parser. *)

Definition digit (c : ascii) : option Z :=
  let n := Z.of_nat (nat_of_ascii c) in
  if (48 <=? n) && (n <=? 57) then Some (n - 48) else None.

Definition two_digits (a b : ascii) : option Z :=
  x ← digit a; y ← digit b; Some (10 * x + y).

Definition four_digits (a b c d : ascii) : option Z :=
  x ← two_digits a b; y ← two_digits c d; Some (100 * x + y).

(** [HH:MM] *)
Definition parse_hh_mm (s : string) : option (Z * Z * string) :=
  match s with
  | String h1 (String h2 (String ":" (String m1 (String m2 rest)))) =>
      h ← two_digits h1 h2;
      m ← two_digits m1 m2;
      if (h <? 24) && (m <? 60) then Some (h, m, rest) else None
  | _ => None
  end.

(** The offset after the time of day, in seconds. *)
Definition parse_offset (s : string) : option (option Z) :=
  match s with
  | EmptyString => Some None
  | String sign rest =>
      sgn ← (if Ascii.eqb sign "+" then Some 1
             else if Ascii.eqb sign "-" then Some (-1) else None);
      '(h, m, rest') ← parse_hh_mm rest;
      match rest' with
      | EmptyString => Some (Some (sgn * (3600 * h + 60 * m)))
      | _ => None
      end
  end.

(** [HH:MM:SS] and the offset *)
Definition parse_time (d : date) (s : string) : option datetime :=
  '(h, m, rest) ← parse_hh_mm s;
  match rest with
  | String ":" (String s1 (String s2 rest')) =>
      sec ← two_digits s1 s2;
      off ← parse_offset rest';
      if sec <? 60 then Some (mkdatetime d h m sec off) else None
  | _ => None
  end.

Definition calendar_fromisoformat (s : string) : option datetime :=
  match s with
  | String y1 (String y2 (String y3 (String y4 (String "-"
      (String m1 (String m2 (String "-" (String d1 (String d2 rest))))))))) =>
      y ← four_digits y1 y2 y3 y4;
      m ← two_digits m1 m2;
      d ← two_digits d1 d2;
      if date_valid (mkdate y m d)
      then match rest with
           | EmptyString => Some (mkdatetime (mkdate y m d) 0 0 0 None)
           | String _ time => parse_time (mkdate y m d) time
           end
      else None
  | _ => None
  end.

(** [str.lower] on ASCII text: the letters A to Z are mapped to a to z. *)
Definition ascii_lower (c : ascii) : ascii :=
  let n := nat_of_ascii c in
  if (65 <=? n)%nat && (n <=? 90)%nat then ascii_of_nat (n + 32) else c.

Fixpoint str_lower (s : string) : string :=
  match s with
  | EmptyString => EmptyString
  | String c rest => String (ascii_lower c) (str_lower rest)
  end.

(** ** Vocabulary of the properties *)

(** [a] is a day strictly before [b]. *)
Definition date_before (a b : date) : Prop :=
  year a < year b
  \/ (year a = year b
      /\ (month a < month b \/ (month a = month b /\ day a < day b))).

(** The field holds a usable date [D]: a [date] value, or a string that the
    parser accepts once every [Z] is replaced by [+00:00], [D] being the date
    part of what it reads. *)
Definition holds_date (fromisoformat : string -> option datetime)
    (v : option str_date_bool) (D : date) : Prop :=
  v = Some (OfDate D)
  \/ exists s dt, v = Some (OfStr s)
                  /\ fromisoformat (str_replace "Z"%char "+00:00" s) = Some dt
                  /\ dt_date dt = D.

(** The string is one the parser refuses. *)
Definition unparseable (fromisoformat : string -> option datetime)
    (s : string) : Prop :=
  fromisoformat (str_replace "Z"%char "+00:00" s) = None.

(** The field yields neither a boolean nor a date: it is absent, or a string
    that the parser refuses. *)
Definition unusable (fromisoformat : string -> option datetime)
    (v : option str_date_bool) : Prop :=
  v = None \/ exists s, v = Some (OfStr s) /\ unparseable fromisoformat s.

(** What a [support] or [eol] field says, read once: nothing, a fixed flag,
    or a day. A string that the parser refuses says nothing. *)
Inductive reading : Type :=
  | Absent
  | Flag (b : bool)
  | Day (D : date).

Definition read_field (fromisoformat : string -> option datetime)
    (v : option str_date_bool) : reading :=
  match v with
  | None => Absent
  | Some (OfBool b) => Flag b
  | Some (OfDate d) => Day d
  | Some (OfStr s) =>
      match fromisoformat (str_replace "Z"%char "+00:00" s) with
      | Some dt => Day (dt_date dt)
      | None => Absent
      end
  end.

(** The character [c] occurs in [s]. *)
Fixpoint str_has (c : ascii) (s : string) : bool :=
  match s with
  | EmptyString => false
  | String c' rest => Ascii.eqb c' c || str_has c rest
  end.

(** The names of the fields of [CycleInfo] and their aliases: the keys that
    [CycleInfo_init] looks up. *)
Definition CycleInfo_keys : list string :=
  ["cycle"; "releaseDate"; "release_date"; "eol"; "latest";
   "latestReleaseDate"; "latest_release_date"; "lts"; "support"].

(** None of the three rules of the loop test holds for [c]. *)
Definition no_rule_matches (version : string) (c : CycleInfo) : Prop :=
  cycle c <> version
  /\ latest c <> Some version
  /\ startswith (cycle c) version = false.

(** A client over a fixed table of documents: a URL outside the table answers
    404. *)
Definition table_client (routes : gmap string document) : EndOfLifeClient :=
  mkEndOfLifeClient "https://endoflife.date/api"
    (fun url => match routes !! url with
                | Some doc => Return doc
                | None => Raise (HTTPStatusError 404)
                end).

(** ** Sample records and catalogs *)

(** The record of the "security-only" scenario: support has ended, end of
    life has not been reached. *)
Definition python_3_11 : CycleInfo :=
  mkCycleInfo "3.11" None (Some (OfStr "2027-10-24")) None None None
    (Some (OfStr "2024-04-01")).

(** A record whose end of life is a fixed flag. *)
Definition node_18 : CycleInfo :=
  mkCycleInfo "18" None (Some (OfBool true)) None None None None.

(** Two releases of one product: the first answers to "3.1" only through its
    [latest] label, the second has "3.1" as its cycle. *)
Definition release_3_0 : CycleInfo :=
  mkCycleInfo "3.0" None (Some (OfBool true)) (Some "3.1") None None None.

Definition release_3_1 : CycleInfo :=
  mkCycleInfo "3.1" None (Some (OfBool false)) (Some "3.1.7") None None None.

Definition raw_3_0 : gmap string value :=
  list_to_map [("cycle", VStr "3.0"); ("eol", VBool true); ("latest", VStr "3.1")].

Definition raw_3_1 : gmap string value :=
  list_to_map [("cycle", VStr "3.1"); ("eol", VBool false); ("latest", VStr "3.1.7")].

(** Raw mappings as the catalog serves them; [codename] names no field. *)
Definition raw_node_22 : gmap string value :=
  list_to_map [("cycle", VStr "22"); ("releaseDate", VStr "2024-04-24");
               ("eol", VStr "2027-04-30"); ("latest", VStr "22.11.0");
               ("latestReleaseDate", VStr "2024-10-29");
               ("lts", VStr "2024-10-29"); ("support", VStr "2025-10-21");
               ("codename", VStr "Jod")].

Definition node_22 : CycleInfo :=
  mkCycleInfo "22" (Some (SdStr "2024-04-24")) (Some (OfStr "2027-04-30"))
    (Some "22.11.0") (Some (SdStr "2024-10-29")) (Some (OfStr "2024-10-29"))
    (Some (OfStr "2025-10-21")).

Definition raw_node_18 : gmap string value :=
  list_to_map [("cycle", VStr "18"); ("eol", VBool true)].

(** A mapping without the [cycle] key. *)
Definition raw_without_cycle : gmap string value :=
  list_to_map [("eol", VBool true); ("latest", VStr "16.20.2")].

Definition ruby_catalog : gmap string document :=
  {[ "https://endoflife.date/api/ruby.json" := DocList [raw_3_0; raw_3_1] ]}.

Definition nodejs_catalog : gmap string document :=
  {[ "https://endoflife.date/api/nodejs.json" := DocList [raw_node_22; raw_node_18] ]}.

Definition nodejs_catalog_malformed : gmap string document :=
  {[ "https://endoflife.date/api/nodejs.json" :=
       DocList [raw_node_22; raw_without_cycle; raw_node_18] ]}.

(** The single-cycle document of nodejs 22: the list entry without its
    [cycle] key. *)
Definition nodejs_22_document : gmap string document :=
  {[ "https://endoflife.date/api/nodejs/22.json" :=
       DocMapping (delete "cycle" raw_node_22) ]}.

(** The same document with the [cycle] key left in. *)
Definition nodejs_22_with_cycle_key : gmap string document :=
  {[ "https://endoflife.date/api/nodejs/22.json" := DocMapping raw_node_22 ]}.

(** A catalog that answers an empty JSON object for the product's list. *)
Definition empty_object_catalog : gmap string document :=
  {[ "https://endoflife.date/api/nodejs.json" := DocMapping ∅ ]}.

(** A client whose every request ends in a 503. *)
Definition server_error_client : EndOfLifeClient :=
  mkEndOfLifeClient "https://endoflife.date/api"
    (fun _ => Raise (HTTPStatusError 503)).

(** A catalog of four product names, one of them with capitals. *)
Definition sample_names : list string :=
  ["python"; "nodejs"; "Python-Django"; "ubuntu"].

Definition sample_catalog_client : CatalogClient :=
  mkCatalogClient (table_client nodejs_catalog)
    (fun url => if String.eqb url "https://endoflife.date/api/all.json"
                then Return sample_names
                else Raise (HTTPStatusError 404)).



(** A record with dates where [python_3_11] has none, and the same [eol] and
    [support]. *)
Definition python_3_11_annotated : CycleInfo :=
  mkCycleInfo "3.11" (Some (SdDate (mkdate 2022 10 24)))
    (Some (OfStr "2027-10-24")) (Some "3.11.11")
    (Some (SdStr "2024-12-03")) (Some (OfBool false))
    (Some (OfStr "2024-04-01")).

(** A record whose two fields are words, not dates. *)
Definition unknown_dates : CycleInfo :=
  mkCycleInfo "1.0" None (Some (OfStr "Unknown")) None None None
    (Some (OfStr "TBD")).

(** A record whose support day lies after its end-of-life day. *)
Definition support_outlives_eol : CycleInfo :=
  mkCycleInfo "0.9" None (Some (OfStr "2025-01-01")) None None None
    (Some (OfStr "2026-01-01T00:00:00Z")).

(** A record that says nothing about its end of life. *)
Definition rolling_release : CycleInfo :=
  mkCycleInfo "rolling" None None (Some "2024.11") None None None.

(** A record with an [eol] date value and no [support]. *)
Definition eol_on_new_years_eve : CycleInfo :=
  mkCycleInfo "2.7" None (Some (OfDate (mkdate 2019 12 31))) None None None None.

(** ** The model at work *)

Example parse_plain_date :
  end_date_of_str calendar_fromisoformat "2027-10-24" = Return (mkdate 2027 10 24).
Proof. reflexivity. Qed.

Example parse_zulu_timestamp :
  end_date_of_str calendar_fromisoformat "2025-04-30T00:00:00Z"
  = Return (mkdate 2025 4 30).
Proof. reflexivity. Qed.

Example parse_rejects_words :
  end_date_of_str calendar_fromisoformat "Unknown" = Raise ValueError.
Proof. reflexivity. Qed.

Example parse_rejects_february_30 :
  end_date_of_str calendar_fromisoformat "2025-02-30" = Raise ValueError.
Proof. reflexivity. Qed.

Example python_3_11_security_only :
  _is_version_supported calendar_fromisoformat python_3_11 (mkdate 2025 1 1)
    = Return false
  /\ _is_version_eol calendar_fromisoformat python_3_11 (mkdate 2025 1 1)
    = Return false.
Proof. split; reflexivity. Qed.

Example node_18_eol :
  _is_version_supported calendar_fromisoformat node_18 (mkdate 2020 1 1)
    = Return false
  /\ _is_version_eol calendar_fromisoformat node_18 (mkdate 2020 1 1)
    = Return true.
Proof. split; reflexivity. Qed.

Example build_node_22 : CycleInfo_init raw_node_22 = Return node_22.
Proof. vm_compute. reflexivity. Qed.

Example list_nodejs :
  get_product_versions (table_client nodejs_catalog) "nodejs"
  = Return (mkProductInfo "nodejs" [node_22; node_18] 2).
Proof. vm_compute. reflexivity. Qed.

(** The single-cycle document answers first when it exists. *)
Example node_22_found_directly :
  check_support_status calendar_fromisoformat
    (table_client {[ "https://endoflife.date/api/nodejs/22.json" :=
                       DocMapping (delete "cycle" raw_node_22) ]})
    "nodejs" "22" (mkdate 2026 1 1)
  = Return (mkSupportStatus "nodejs" "22" true (Some node_22) false false).
Proof. vm_compute. reflexivity. Qed.

(** The prefix rule: "2" finds cycle "22" in the list. *)
Example node_2_by_prefix :
  check_support_status calendar_fromisoformat (table_client nodejs_catalog)
    "nodejs" "2" (mkdate 2025 1 1)
  = Return (mkSupportStatus "nodejs" "2" true (Some node_22) true false).
Proof. vm_compute. reflexivity. Qed.

(** ** Dates *)

Lemma date_cmp_refl (d : date) : date_cmp d d = Eq.
Proof. unfold date_cmp. now rewrite !Z.compare_refl. Qed.

Lemma date_le_refl (d : date) : date_le d d = true.
Proof. unfold date_le. now rewrite date_cmp_refl. Qed.

Lemma date_gt_irrefl (d : date) : date_gt d d = false.
Proof. unfold date_gt. now rewrite date_cmp_refl. Qed.

Lemma date_cmp_Gt (a b : date) : date_cmp a b = Gt <-> date_before b a.
Proof.
  unfold date_cmp, date_before.
  destruct (Z.compare_spec (year a) (year b)) as [Hy | Hy | Hy];
    [destruct (Z.compare_spec (month a) (month b)) as [Hm | Hm | Hm];
       [destruct (Z.compare_spec (day a) (day b)) as [Hd | Hd | Hd] | | ] | | ];
    split; intros H; try discriminate H; try reflexivity; try lia.
Qed.

Lemma date_gt_spec (a b : date) : date_gt a b = true <-> date_before b a.
Proof.
  rewrite <- date_cmp_Gt. unfold date_gt.
  destruct (date_cmp a b); split; intros H; congruence.
Qed.

Lemma date_le_spec (a b : date) : date_le a b = true <-> ~ date_before b a.
Proof.
  rewrite <- date_cmp_Gt. unfold date_le.
  destruct (date_cmp a b); split; intros H; congruence.
Qed.

Lemma date_le_negb_gt (a b : date) : date_le a b = negb (date_gt a b).
Proof. unfold date_le, date_gt. now destruct (date_cmp a b). Qed.

Lemma next_day_after (d d' : date) : next_day d = Some d' -> date_before d d'.
Proof.
  unfold next_day, date_before. intros H.
  destruct (day d <? days_in_month (year d) (month d)) eqn:Hd.
  - injection H as <-. simpl. lia.
  - destruct (month d <? 12) eqn:Hm.
    + injection H as <-. simpl. lia.
    + destruct (year d <? 9999) eqn:Hy; [| discriminate H].
      injection H as <-. simpl. lia.
Qed.

Lemma days_in_month_bounds (y m : Z) : 28 <= days_in_month y m <= 31.
Proof.
  unfold days_in_month.
  destruct (m =? 2); [destruct (is_leap y); lia |].
  destruct ((m =? 4) || (m =? 6) || (m =? 9) || (m =? 11)); lia.
Qed.

(** The day after a date that Python can hold is again such a date. *)
Lemma next_day_valid (d d' : date) :
  date_valid d = true -> next_day d = Some d' -> date_valid d' = true.
Proof.
  unfold date_valid, next_day. rewrite !andb_true_iff, !Z.leb_le.
  intros (((((Hy1 & Hy2) & Hm1) & Hm2) & Hd1) & Hd2) H.
  destruct (day d <? days_in_month (year d) (month d)) eqn:Hd.
  - injection H as <-. cbn [year month day]. apply Z.ltb_lt in Hd.
    lia.
  - destruct (month d <? 12) eqn:Hm.
    + injection H as <-. cbn [year month day]. apply Z.ltb_lt in Hm.
      pose proof (days_in_month_bounds (year d) (month d + 1)).
      lia.
    + destruct (year d <? 9999) eqn:Hy; [| discriminate H].
      injection H as <-. cbn [year month day]. apply Z.ltb_lt in Hy.
      pose proof (days_in_month_bounds (year d + 1) 1).
      lia.
Qed.

Lemma next_day_gt (d d' : date) : next_day d = Some d' -> date_gt d' d = true.
Proof. intros H. apply date_gt_spec. now apply next_day_after. Qed.

Lemma next_day_not_le (d d' : date) : next_day d = Some d' -> date_le d' d = false.
Proof. intros H. rewrite date_le_negb_gt. now rewrite (next_day_gt _ _ H). Qed.

(** ** The evaluator on each shape of field *)

Section Evaluator.

Variable fromisoformat : string -> option datetime.

Lemma end_date_of_str_cases (s : string) :
  (exists D, end_date_of_str fromisoformat s = Return D)
  \/ end_date_of_str fromisoformat s = Raise ValueError.
Proof.
  unfold end_date_of_str, datetime_fromisoformat.
  destruct (fromisoformat _); simpl; eauto.
Qed.

Lemma end_date_of_str_parsed (s : string) (dt : datetime) :
  fromisoformat (str_replace "Z"%char "+00:00" s) = Some dt ->
  end_date_of_str fromisoformat s = Return (dt_date dt).
Proof.
  intros H. unfold end_date_of_str, datetime_fromisoformat. now rewrite H.
Qed.

Lemma end_date_of_str_refused (s : string) :
  unparseable fromisoformat s ->
  end_date_of_str fromisoformat s = Raise ValueError.
Proof.
  intros H. unfold end_date_of_str, datetime_fromisoformat.
  unfold unparseable in H. now rewrite H.
Qed.

(** The part of [_is_version_supported] under "Check EOL date as
    fallback". *)
Lemma eol_fallback_on_date (ci : CycleInfo) (D today : date) :
  holds_date fromisoformat (eol ci) D ->
  match eol ci with
  | None => Return false
  | Some (OfBool b) => Return (negb b)
  | Some (OfStr s) =>
      try_except
        (eol_end ← end_date_of_str fromisoformat s;
         Return (date_le today eol_end))
        ValueError_or_TypeError (fun _ => Return false)
  | Some (OfDate d) =>
      try_except (Return (date_le today d))
        ValueError_or_TypeError (fun _ => Return false)
  end = Return (date_le today D).
Proof.
  intros [-> | (s & dt & -> & Hp & <-)]; [reflexivity |].
  now rewrite (end_date_of_str_parsed _ _ Hp).
Qed.

(** What the fallback on [eol] computes, once [support] has given nothing. *)
Lemma supported_by_eol_date (ci : CycleInfo) (D today : date) :
  unusable fromisoformat (support ci) ->
  holds_date fromisoformat (eol ci) D ->
  _is_version_supported fromisoformat ci today = Return (date_le today D).
Proof.
  intros Hs He. unfold _is_version_supported.
  pose proof (eol_fallback_on_date ci D today He) as Heol.
  destruct Hs as [-> | (s & -> & Hp)]; [exact Heol |].
  rewrite (end_date_of_str_refused _ Hp). simpl. exact Heol.
Qed.

Lemma supported_by_eol_flag (ci : CycleInfo) (b : bool) (today : date) :
  unusable fromisoformat (support ci) ->
  eol ci = Some (OfBool b) ->
  _is_version_supported fromisoformat ci today = Return (negb b).
Proof.
  intros Hs He. unfold _is_version_supported. rewrite He.
  destruct Hs as [-> | (s & -> & Hp)]; [reflexivity |].
  now rewrite (end_date_of_str_refused _ Hp).
Qed.

Lemma supported_by_nothing (ci : CycleInfo) (today : date) :
  unusable fromisoformat (support ci) ->
  unusable fromisoformat (eol ci) ->
  _is_version_supported fromisoformat ci today = Return false.
Proof.
  intros Hs He. unfold _is_version_supported.
  assert (Heol : match eol ci with
                 | None => Return false
                 | Some (OfBool b) => Return (negb b)
                 | Some (OfStr s) =>
                     try_except
                       (eol_end ← end_date_of_str fromisoformat s;
                        Return (date_le today eol_end))
                       ValueError_or_TypeError (fun _ => Return false)
                 | Some (OfDate d) =>
                     try_except (Return (date_le today d))
                       ValueError_or_TypeError (fun _ => Return false)
                 end = Return false).
  { destruct He as [-> | (s & -> & Hp)]; [reflexivity |].
    now rewrite (end_date_of_str_refused _ Hp). }
  destruct Hs as [-> | (s & -> & Hp)]; [exact Heol |].
  rewrite (end_date_of_str_refused _ Hp). simpl. exact Heol.
Qed.

Lemma supported_by_support_date (ci : CycleInfo) (D today : date) :
  holds_date fromisoformat (support ci) D ->
  _is_version_supported fromisoformat ci today = Return (date_le today D).
Proof.
  intros [H | (s & dt & H & Hp & <-)]; unfold _is_version_supported; rewrite H.
  - reflexivity.
  - now rewrite (end_date_of_str_parsed _ _ Hp).
Qed.

Lemma eol_by_date (ci : CycleInfo) (D today : date) :
  holds_date fromisoformat (eol ci) D ->
  _is_version_eol fromisoformat ci today = Return (date_gt today D).
Proof.
  intros [H | (s & dt & H & Hp & <-)]; unfold _is_version_eol; rewrite H.
  - reflexivity.
  - now rewrite (end_date_of_str_parsed _ _ Hp).
Qed.

Lemma eol_by_refused_string (ci : CycleInfo) (s : string) (today : date) :
  eol ci = Some (OfStr s) ->
  unparseable fromisoformat s ->
  _is_version_eol fromisoformat ci today = Return false.
Proof.
  intros H Hp. unfold _is_version_eol. rewrite H.
  now rewrite (end_date_of_str_refused _ Hp).
Qed.

(** Neither function lets an exception out. *)
Lemma _is_version_eol_returns (ci : CycleInfo) (today : date) :
  exists b, _is_version_eol fromisoformat ci today = Return b.
Proof.
  unfold _is_version_eol.
  destruct (eol ci) as [[b | s | d] |]; simpl; eauto.
  destruct (end_date_of_str_cases s) as [[D ->] | ->]; simpl; eauto.
Qed.

Lemma _is_version_supported_returns (ci : CycleInfo) (today : date) :
  exists b, _is_version_supported fromisoformat ci today = Return b.
Proof.
  unfold _is_version_supported.
  assert (Heol : exists b,
             match eol ci with
             | None => Return false
             | Some (OfBool b) => Return (negb b)
             | Some (OfStr s) =>
                 try_except
                   (eol_end ← end_date_of_str fromisoformat s;
                    Return (date_le today eol_end))
                   ValueError_or_TypeError (fun _ => Return false)
             | Some (OfDate d) =>
                 try_except (Return (date_le today d))
                   ValueError_or_TypeError (fun _ => Return false)
             end = Return b).
  { destruct (eol ci) as [[b | s | d] |]; simpl; eauto.
    destruct (end_date_of_str_cases s) as [[D ->] | ->]; simpl; eauto. }
  destruct (support ci) as [[b | s | d] |]; simpl; eauto.
  destruct (end_date_of_str_cases s) as [[D ->] | ->]; simpl; eauto.
Qed.

Lemma found_status_returns (product version : string) (c : CycleInfo)
    (today : date) :
  exists sup e,
    found_status fromisoformat product version c today
    = Return (mkSupportStatus product version true (Some c) sup e).
Proof.
  unfold found_status.
  destruct (_is_version_supported_returns c today) as [sup ->].
  destruct (_is_version_eol_returns c today) as [e ->].
  simpl. eauto.
Qed.

End Evaluator.

(** ** The resolver loop *)

Lemma startswith_self (s : string) : startswith s s = true.
Proof.
  unfold startswith. induction s as [| c s IH]; simpl; [reflexivity |].
  destruct (ascii_dec c c) as [_ | Hne]; [exact IH | now destruct Hne].
Qed.

Lemma startswith_empty (s : string) : startswith s "" = true.
Proof. now destruct s. Qed.

Lemma cycle_matches_true_iff (version : string) (c : CycleInfo) :
  cycle_matches version c = true
  <-> cycle c = version \/ latest c = Some version
      \/ startswith (cycle c) version = true.
Proof.
  unfold cycle_matches. rewrite !orb_true_iff, String.eqb_eq.
  destruct (latest c) as [l |].
  - rewrite String.eqb_eq. split.
    + intros [[H | H] | H]; auto. subst l. auto.
    + intros [H | [H | H]]; auto. injection H as H. auto.
  - split.
    + intros [[H | H] | H]; auto. discriminate H.
    + intros [H | [H | H]]; auto. discriminate H.
Qed.

Lemma cycle_matches_false_iff (version : string) (c : CycleInfo) :
  cycle_matches version c = false <-> no_rule_matches version c.
Proof.
  unfold no_rule_matches. split.
  - intros H. repeat split.
    + intros E. assert (cycle_matches version c = true) as E'
        by (apply cycle_matches_true_iff; auto). congruence.
    + intros E. assert (cycle_matches version c = true) as E'
        by (apply cycle_matches_true_iff; auto). congruence.
    + destruct (startswith (cycle c) version) eqn:E; [| reflexivity].
      assert (cycle_matches version c = true) as E'
        by (apply cycle_matches_true_iff; auto). congruence.
  - intros (H1 & H2 & H3).
    destruct (cycle_matches version c) eqn:E; [| reflexivity].
    apply cycle_matches_true_iff in E as [E | [E | E]]; congruence.
Qed.

Lemma first_matching_cycle_skip (version : string) (pre vs : list CycleInfo) :
  Forall (no_rule_matches version) pre ->
  first_matching_cycle version (pre ++ vs)%list = first_matching_cycle version vs.
Proof.
  induction 1 as [| c pre Hc _ IH]; simpl; [reflexivity |].
  apply cycle_matches_false_iff in Hc. now rewrite Hc.
Qed.

Lemma first_matching_cycle_Some (version : string) (vs : list CycleInfo)
    (r : CycleInfo) :
  first_matching_cycle version vs = Some r ->
  exists pre post : list CycleInfo,
    vs = (pre ++ r :: post)%list
    /\ Forall (no_rule_matches version) pre
                   /\ cycle_matches version r = true.
Proof.
  induction vs as [| c vs IH]; simpl; [discriminate |].
  destruct (cycle_matches version c) eqn:E.
  - intros [= ->]. exists [], vs. auto.
  - intros H. destruct (IH H) as (pre & post & -> & Hpre & Hr).
    exists (c :: pre), post. repeat split; auto.
    constructor; [now apply cycle_matches_false_iff | exact Hpre].
Qed.

Lemma first_matching_cycle_None (version : string) (vs : list CycleInfo) :
  first_matching_cycle version vs = None
  <-> Forall (no_rule_matches version) vs.
Proof.
  induction vs as [| c vs IH]; simpl.
  - split; auto.
  - destruct (cycle_matches version c) eqn:E; split; intros H.
    + discriminate H.
    + inversion H as [| ? ? Hc _]. apply cycle_matches_false_iff in Hc. congruence.
    + constructor; [now apply cycle_matches_false_iff | now apply IH].
    + inversion H. now apply IH.
Qed.

(** ** Building the candidate list *)

Lemma validate_required_str_cases (o : option value) :
  (exists s, validate_required_str o = Return s)
  \/ validate_required_str o = Raise ValidationError.
Proof. destruct o as [[| | |] |]; simpl; eauto. Qed.

Lemma validate_optional_str_cases (o : option value) :
  (exists s, validate_optional_str o = Return s)
  \/ validate_optional_str o = Raise ValidationError.
Proof. destruct o as [[| | |] |]; simpl; eauto. Qed.

Lemma validate_optional_str_date_cases (o : option value) :
  (exists s, validate_optional_str_date o = Return s)
  \/ validate_optional_str_date o = Raise ValidationError.
Proof. destruct o as [[| | |] |]; simpl; eauto. Qed.

Lemma validate_optional_str_date_bool_returns (o : option value) :
  exists s, validate_optional_str_date_bool o = Return s.
Proof. destruct o as [[| | |] |]; simpl; eauto. Qed.

(** A [CycleInfo] is built, or the construction raises a validation error:
    there is no third outcome. *)
Lemma CycleInfo_init_cases (kwargs : gmap string value) :
  (exists c, CycleInfo_init kwargs = Return c)
  \/ CycleInfo_init kwargs = Raise ValidationError.
Proof.
  unfold CycleInfo_init.
  destruct (validate_required_str_cases (kwargs !! "cycle")) as [[c ->] | ->];
    [| now right]. simpl.
  destruct (validate_optional_str_date_cases
              (by_alias_or_name kwargs "releaseDate" "release_date"))
    as [[rd ->] | ->]; [| now right]. simpl.
  destruct (validate_optional_str_date_bool_returns (kwargs !! "eol")) as [e ->].
  simpl.
  destruct (validate_optional_str_cases (kwargs !! "latest")) as [[l ->] | ->];
    [| now right]. simpl.
  destruct (validate_optional_str_date_cases
              (by_alias_or_name kwargs "latestReleaseDate" "latest_release_date"))
    as [[lrd ->] | ->]; [| now right]. simpl.
  destruct (validate_optional_str_date_bool_returns (kwargs !! "lts")) as [lt ->].
  destruct (validate_optional_str_date_bool_returns (kwargs !! "support")) as [s ->].
  simpl. eauto.
Qed.

Lemma CycleInfo_init_missing_cycle (kwargs : gmap string value) :
  kwargs !! "cycle" = None -> CycleInfo_init kwargs = Raise ValidationError.
Proof. intros H. unfold CycleInfo_init. now rewrite H. Qed.

Lemma CycleInfo_init_cycle (kwargs : gmap string value) (c : CycleInfo) :
  CycleInfo_init kwargs = Return c -> kwargs !! "cycle" = Some (VStr (cycle c)).
Proof.
  unfold CycleInfo_init.
  destruct (kwargs !! "cycle") as [[| | s |] |]; simpl; try discriminate.
  repeat match goal with
         | |- (?m ≫= _) = _ -> _ => destruct m; simpl; try discriminate
         end.
  now intros [= <-].
Qed.

Lemma append_cycles_all_built (items : list (gmap string value))
    (built acc : list CycleInfo) :
  Forall2 (fun raw c => CycleInfo_init raw = Return c) items built ->
  append_cycles acc items = Return (acc ++ built)%list.
Proof.
  intros H. revert acc.
  induction H as [| raw c items built Hc _ IH]; intros acc; simpl.
  - now rewrite app_nil_r.
  - rewrite Hc. simpl. rewrite IH. now rewrite <- app_assoc.
Qed.

Lemma append_cycles_one_malformed (items : list (gmap string value))
    (acc : list CycleInfo) :
  Exists (fun raw => raw !! "cycle" = None) items ->
  append_cycles acc items = Raise ValidationError.
Proof.
  intros H. revert acc.
  induction H as [raw items Hraw | raw items _ IH]; intros acc; simpl.
  - now rewrite (CycleInfo_init_missing_cycle _ Hraw).
  - destruct (CycleInfo_init_cases raw) as [[c ->] | ->]; simpl; [apply IH | reflexivity].
Qed.

Lemma append_cycles_Return (items : list (gmap string value))
    (acc cycles : list CycleInfo) :
  append_cycles acc items = Return cycles ->
  exists built : list CycleInfo,
    cycles = (acc ++ built)%list
    /\ Forall2 (fun raw c => CycleInfo_init raw = Return c) items built.
Proof.
  revert acc. induction items as [| raw items IH]; intros acc; simpl.
  - intros [= <-]. exists []. split; [now rewrite app_nil_r | constructor].
  - destruct (CycleInfo_init raw) as [c |] eqn:Hc; simpl; [| discriminate].
    intros H. destruct (IH _ H) as (built & -> & Hb).
    exists (c :: built). split; [now rewrite <- app_assoc | now constructor].
Qed.

(** ** The service *)

Lemma log_and_reraise_id {A : Type} (body : Exc A) : log_and_reraise body = body.
Proof. now destruct body. Qed.

(** After a 404 on the single-cycle document, the answer comes from the loop
    over the product's list. *)
Lemma check_support_status_after_404 (fromisoformat : string -> option datetime)
    (self : EndOfLifeClient) (product version : string) (today : date) :
  get_cycle_details self product version = Raise (HTTPStatusError 404) ->
  check_support_status fromisoformat self product version today
  = (product_info ← get_product_versions self product;
     match first_matching_cycle version (versions product_info) with
     | Some c => found_status fromisoformat product version c today
     | None => Return (mkSupportStatus product version false None false true)
     end).
Proof.
  intros H. unfold check_support_status.
  rewrite log_and_reraise_id, H. reflexivity.
Qed.

(** With an empty requested version the loop over a non-empty list stops on
    its first record, and the service reports it as found. *)
Lemma empty_version_found_after_404 (fromisoformat : string -> option datetime)
    (self : EndOfLifeClient) (product : string) (today : date)
    (c : CycleInfo) (rest : list CycleInfo) (n : Z) :
  get_cycle_details self product "" = Raise (HTTPStatusError 404) ->
  get_product_versions self product = Return (mkProductInfo product (c :: rest) n) ->
  exists sup e : bool,
    check_support_status fromisoformat self product "" today
    = Return (mkSupportStatus product "" true (Some c) sup e).
Proof.
  intros H404 Hlist.
  rewrite check_support_status_after_404 by exact H404.
  rewrite Hlist. simpl.
  assert (cycle_matches "" c = true) as ->
    by (apply cycle_matches_true_iff; right; right; apply startswith_empty).
  apply found_status_returns.
Qed.

(** ** Properties of the resolver *)

(** C1, as the code has it. Version resolution is a single pass over the
    list with the three rules joined by [or]: the record returned is the
    first record, in list order, that satisfies at least one rule, whichever
    rule that is. So a record that satisfies a rule (its cycle equals the
    requested version, its [latest] equals it, or its cycle starts with it)
    is returned when no record before it satisfies any of the three rules,
    and in particular an exact-cycle record is; whenever a record is
    returned, no record before it satisfies any rule and it satisfies at
    least one; and nothing is returned exactly when no record of the list
    satisfies any rule. *)
Theorem first_match_in_list_order_wins (version : string) :
  (forall (pre post : list CycleInfo) (r : CycleInfo),
      cycle r = version \/ latest r = Some version
      \/ startswith (cycle r) version = true ->
      Forall (no_rule_matches version) pre ->
      first_matching_cycle version (pre ++ r :: post)%list = Some r)
  /\ (forall (pre post : list CycleInfo) (r : CycleInfo),
         cycle r = version ->
         Forall (no_rule_matches version) pre ->
         first_matching_cycle version (pre ++ r :: post)%list = Some r)
  /\ (forall (vs : list CycleInfo) (r : CycleInfo),
         first_matching_cycle version vs = Some r ->
         exists pre post : list CycleInfo,
           vs = (pre ++ r :: post)%list
           /\ Forall (no_rule_matches version) pre
           /\ (cycle r = version \/ latest r = Some version
               \/ startswith (cycle r) version = true))
  /\ (forall vs : list CycleInfo,
         first_matching_cycle version vs = None
         <-> Forall (no_rule_matches version) vs).
Proof.
  assert (Hfirst : forall (pre post : list CycleInfo) (r : CycleInfo),
             cycle r = version \/ latest r = Some version
             \/ startswith (cycle r) version = true ->
             Forall (no_rule_matches version) pre ->
             first_matching_cycle version (pre ++ r :: post)%list = Some r).
  { intros pre post r Hr Hpre.
    rewrite first_matching_cycle_skip by exact Hpre. simpl.
    apply cycle_matches_true_iff in Hr. now rewrite Hr. }
  split; [exact Hfirst |].
  split; [| split].
  - intros pre post r Hr Hpre. apply Hfirst; auto.
  - intros vs r H.
    destruct (first_matching_cycle_Some _ _ _ H) as (pre & post & E & Hpre & Hr).
    exists pre, post. repeat split; auto. now apply cycle_matches_true_iff.
  - intros vs. apply first_matching_cycle_None.
Qed.

Lemma first_match_in_list_order_wins_witness :
  first_matching_cycle "3.1" [eol_on_new_years_eve; release_3_1; release_3_0]
    = Some release_3_1
  /\ first_matching_cycle "3.1" [eol_on_new_years_eve; release_3_0; release_3_1]
    = Some release_3_0
  /\ first_matching_cycle "3" [eol_on_new_years_eve; release_3_0; release_3_1]
    = Some release_3_0.
Proof.
  assert (Hpre : forall version : string,
             cycle eol_on_new_years_eve <> version ->
             startswith (cycle eol_on_new_years_eve) version = false ->
             Forall (no_rule_matches version) [eol_on_new_years_eve]).
  { intros version Hc Hp. constructor; [| constructor].
    unfold no_rule_matches. simpl.
    split; [exact Hc | split; [discriminate | exact Hp]]. }
  split; [| split].
  - apply (proj1 (proj2 (first_match_in_list_order_wins "3.1"))
             [eol_on_new_years_eve] [release_3_0] release_3_1).
    + reflexivity.
    + apply Hpre; [discriminate | reflexivity].
  - apply (proj1 (first_match_in_list_order_wins "3.1")
             [eol_on_new_years_eve] [release_3_1] release_3_0).
    + right. left. reflexivity.
    + apply Hpre; [discriminate | reflexivity].
  - apply (proj1 (first_match_in_list_order_wins "3")
             [eol_on_new_years_eve] [release_3_1] release_3_0).
    + right. right. reflexivity.
    + apply Hpre; [discriminate | reflexivity].
Defined.

(** C1, counterexample. With the record that carries "3.1" as its [latest]
    label ahead of the record whose cycle is "3.1", the loop returns the
    former: the exact-cycle record does not win. The same holds through
    [check_support_status] when the single-cycle document answers 404. *)
Lemma exact_cycle_loses_to_earlier_alias :
  cycle release_3_1 = "3.1"
  /\ cycle release_3_0 <> "3.1"
  /\ first_matching_cycle "3.1" [release_3_0; release_3_1] = Some release_3_0
  /\ check_support_status calendar_fromisoformat (table_client ruby_catalog)
       "ruby" "3.1" (mkdate 2025 1 1)
     = Return (mkSupportStatus "ruby" "3.1" true (Some release_3_0) false true).
Proof.
  split; [reflexivity |].
  split; [discriminate |].
  split; [reflexivity |].
  vm_compute. reflexivity.
Qed.

(** C10. The empty string is a prefix of every cycle string, so on a
    non-empty list the loop returns on its first record when the requested
    version is empty; with an empty requested version the loop finds nothing
    only on the empty list. *)
Theorem empty_version_matches_first_record :
  (forall c : CycleInfo, startswith (cycle c) "" = true)
  /\ (forall (c : CycleInfo) (rest : list CycleInfo),
         first_matching_cycle "" (c :: rest) = Some c)
  /\ (forall vs : list CycleInfo,
         first_matching_cycle "" vs = None <-> vs = []).
Proof.
  assert (Hm : forall c, cycle_matches "" c = true).
  { intros c. apply cycle_matches_true_iff. right. right. apply startswith_empty. }
  repeat split.
  - intros c. apply startswith_empty.
  - intros c rest. simpl. now rewrite Hm.
  - destruct vs as [| c rest]; [reflexivity |]. simpl. rewrite Hm. discriminate.
  - intros ->. reflexivity.
Qed.

(** ** Properties of the service *)

(** C2. When the single-cycle document answers 404 and the product's list is
    obtained, a list in which no record satisfies any of the three rules, and
    in particular the empty list, gives the result [found = False],
    [is_supported = False], [is_eol = True], returned as a value. *)
Theorem not_found_is_worst_case (fromisoformat : string -> option datetime)
    (self : EndOfLifeClient) (product version : string) (today : date)
    (product_info : ProductInfo) :
  get_cycle_details self product version = Raise (HTTPStatusError 404) ->
  get_product_versions self product = Return product_info ->
  (Forall (no_rule_matches version) (versions product_info) ->
   check_support_status fromisoformat self product version today
   = Return (mkSupportStatus product version false None false true))
  /\ (versions product_info = [] ->
      check_support_status fromisoformat self product version today
      = Return (mkSupportStatus product version false None false true)).
Proof.
  intros H404 Hlist.
  assert (Hgen : Forall (no_rule_matches version) (versions product_info) ->
                 check_support_status fromisoformat self product version today
                 = Return (mkSupportStatus product version false None false true)).
  { intros Hnone.
    rewrite check_support_status_after_404 by exact H404.
    rewrite Hlist. simpl.
    apply first_matching_cycle_None in Hnone. now rewrite Hnone. }
  split; [exact Hgen |].
  intros Hnil. apply Hgen. rewrite Hnil. constructor.
Qed.

Lemma not_found_is_worst_case_witness :
  check_support_status calendar_fromisoformat (table_client nodejs_catalog)
    "nodejs" "not-a-real-version" (mkdate 2025 1 1)
  = Return (mkSupportStatus "nodejs" "not-a-real-version" false None false true).
Proof.
  apply (proj1 (not_found_is_worst_case calendar_fromisoformat
                  (table_client nodejs_catalog) "nodejs" "not-a-real-version"
                  (mkdate 2025 1 1)
                  (mkProductInfo "nodejs" [node_22; node_18] 2)
                  ltac:(vm_compute; reflexivity)
                  ltac:(vm_compute; reflexivity))).
  simpl. constructor; [| constructor; [| constructor]];
    unfold no_rule_matches; simpl;
    (split; [discriminate | split; [discriminate | reflexivity]]).
Defined.

(** C8, as the code has it. A raw mapping without the [cycle] key fails the
    construction of its record with a validation error, and nothing skips
    it: [get_product_versions] raises that error instead of returning a
    list, and a [check_support_status] that reaches the list raises it too.
    When every raw mapping builds a record, the records are returned all, in
    the order of the input. *)
Theorem malformed_record_fails_the_listing
    (fromisoformat : string -> option datetime) (self : EndOfLifeClient)
    (product : string) (items : list (gmap string value)) :
  _client self (base_url self +:+ "/" +:+ product +:+ ".json")
    = Return (DocList items) ->
  (Exists (fun raw => raw !! "cycle" = None) items ->
   get_product_versions self product = Raise ValidationError
   /\ forall (version : string) (today : date),
        get_cycle_details self product version = Raise (HTTPStatusError 404) ->
        check_support_status fromisoformat self product version today
        = Raise ValidationError)
  /\ (forall cycles : list CycleInfo,
         Forall2 (fun raw c => CycleInfo_init raw = Return c) items cycles ->
         get_product_versions self product
         = Return (mkProductInfo product cycles (Z.of_nat (length cycles)))).
Proof.
  intros Hfetch. split.
  - intros Hbad.
    assert (Hraise : get_product_versions self product = Raise ValidationError).
    { unfold get_product_versions. rewrite log_and_reraise_id, Hfetch. simpl.
      now rewrite (append_cycles_one_malformed _ _ Hbad). }
    split; [exact Hraise |].
    intros version today H404.
    rewrite check_support_status_after_404 by exact H404.
    now rewrite Hraise.
  - intros cycles Hall.
    unfold get_product_versions. rewrite log_and_reraise_id, Hfetch. simpl.
    now rewrite (append_cycles_all_built _ _ [] Hall).
Qed.

Lemma malformed_record_fails_the_listing_witness :
  get_product_versions (table_client nodejs_catalog_malformed) "nodejs"
  = Raise ValidationError.
Proof.
  apply (proj1 (malformed_record_fails_the_listing calendar_fromisoformat
                  (table_client nodejs_catalog_malformed) "nodejs"
                  [raw_node_22; raw_without_cycle; raw_node_18]
                  ltac:(vm_compute; reflexivity))).
  apply Exists_cons_tl, Exists_cons_hd. vm_compute. reflexivity.
Defined.

(** C8, counterexample. The list [raw_node_22; raw_without_cycle;
    raw_node_18] has two well-formed mappings around one without [cycle]:
    the listing is not the two well-formed records, it is a validation error,
    and asking for version "18" fails with it. *)
Lemma malformed_record_is_not_skipped :
  CycleInfo_init raw_node_22 = Return node_22
  /\ CycleInfo_init raw_node_18 = Return node_18
  /\ get_product_versions (table_client nodejs_catalog_malformed) "nodejs"
     <> Return (mkProductInfo "nodejs" [node_22; node_18] 2)
  /\ get_product_versions (table_client nodejs_catalog_malformed) "nodejs"
     = Raise ValidationError
  /\ check_support_status calendar_fromisoformat
       (table_client nodejs_catalog_malformed) "nodejs" "18" (mkdate 2025 1 1)
     = Raise ValidationError.
Proof.
  split; [vm_compute; reflexivity |].
  split; [vm_compute; reflexivity |].
  split; [vm_compute; discriminate |].
  split; vm_compute; reflexivity.
Qed.

(** ** Properties of the evaluator *)

(** C6. A record without [eol] is not end-of-life, whatever the day; a
    record whose [eol] is a boolean is end-of-life exactly when the boolean
    says so, whatever the day. *)
Theorem eol_absent_or_boolean (fromisoformat : string -> option datetime)
    (ci : CycleInfo) (today : date) :
  (eol ci = None -> _is_version_eol fromisoformat ci today = Return false)
  /\ (forall b : bool,
         eol ci = Some (OfBool b) ->
         _is_version_eol fromisoformat ci today = Return b).
Proof.
  unfold _is_version_eol. split.
  - intros ->. reflexivity.
  - intros b ->. reflexivity.
Qed.

Lemma eol_absent_or_boolean_witness :
  _is_version_eol calendar_fromisoformat rolling_release (mkdate 2030 6 15)
    = Return false
  /\ _is_version_eol calendar_fromisoformat node_18 (mkdate 1999 1 1)
    = Return true.
Proof.
  split.
  - apply (proj1 (eol_absent_or_boolean calendar_fromisoformat rolling_release
                    (mkdate 2030 6 15))).
    reflexivity.
  - apply (proj2 (eol_absent_or_boolean calendar_fromisoformat node_18
                    (mkdate 1999 1 1)) true).
    reflexivity.
Defined.

(** C5. When [eol] holds a usable date [D], the record is end-of-life
    exactly on the days strictly after [D]: not yet on [D] itself, and from
    the day after [D] on. *)
Theorem eol_strictly_after_date (fromisoformat : string -> option datetime)
    (ci : CycleInfo) (D : date) :
  holds_date fromisoformat (eol ci) D ->
  (forall today : date,
      exists b : bool,
        _is_version_eol fromisoformat ci today = Return b
        /\ (b = true <-> date_before D today))
  /\ _is_version_eol fromisoformat ci D = Return false
  /\ (forall D' : date,
         next_day D = Some D' ->
         _is_version_eol fromisoformat ci D' = Return true).
Proof.
  intros HD. split; [| split].
  - intros today. exists (date_gt today D).
    split; [now apply eol_by_date | apply date_gt_spec].
  - rewrite (eol_by_date _ _ _ _ HD). now rewrite date_gt_irrefl.
  - intros D' Hnext. rewrite (eol_by_date _ _ _ _ HD).
    now rewrite (next_day_gt _ _ Hnext).
Qed.

Lemma eol_strictly_after_date_witness :
  _is_version_eol calendar_fromisoformat python_3_11 (mkdate 2027 10 24)
    = Return false
  /\ _is_version_eol calendar_fromisoformat python_3_11 (mkdate 2027 10 25)
    = Return true.
Proof.
  assert (H : holds_date calendar_fromisoformat (eol python_3_11)
                (mkdate 2027 10 24)).
  { right. exists "2027-10-24", (mkdatetime (mkdate 2027 10 24) 0 0 0 None).
    split; [reflexivity | split; reflexivity]. }
  destruct (eol_strictly_after_date calendar_fromisoformat python_3_11
              (mkdate 2027 10 24) H) as (_ & Hon & Hafter).
  split; [exact Hon | apply Hafter; reflexivity].
Defined.

(** C4. A usable [support] field decides [is_supported] alone, whatever
    [eol] holds: a boolean is returned as it is, and a date [D] gives
    supported exactly on the days up to and including [D]. *)
Theorem support_field_decides (fromisoformat : string -> option datetime)
    (ci : CycleInfo) (today : date) :
  (forall b : bool,
      support ci = Some (OfBool b) ->
      _is_version_supported fromisoformat ci today = Return b)
  /\ (forall D : date,
         holds_date fromisoformat (support ci) D ->
         exists r : bool,
           _is_version_supported fromisoformat ci today = Return r
           /\ (r = true <-> ~ date_before D today)).
Proof.
  split.
  - intros b H. unfold _is_version_supported. now rewrite H.
  - intros D HD. exists (date_le today D).
    split; [now apply supported_by_support_date | apply date_le_spec].
Qed.

Lemma support_field_decides_witness :
  exists r : bool,
    _is_version_supported calendar_fromisoformat python_3_11 (mkdate 2025 1 1)
      = Return r
    /\ (r = true <-> ~ date_before (mkdate 2024 4 1) (mkdate 2025 1 1)).
Proof.
  apply (proj2 (support_field_decides calendar_fromisoformat python_3_11
                  (mkdate 2025 1 1)) (mkdate 2024 4 1)).
  right. exists "2024-04-01", (mkdatetime (mkdate 2024 4 1) 0 0 0 None).
  split; [reflexivity | split; reflexivity].
Defined.

(** C3. Without a [support] field, [is_supported] is read off [eol] with the
    boolean turned around: [eol = True] gives unsupported on every day
    ([eol = False] supported), and an [eol] date [D] gives supported on [D]
    and unsupported on the day after [D]. *)
Theorem supported_falls_back_to_eol (fromisoformat : string -> option datetime)
    (ci : CycleInfo) :
  support ci = None ->
  (eol ci = Some (OfBool true) ->
   forall today : date,
     _is_version_supported fromisoformat ci today = Return false)
  /\ (forall b : bool,
         eol ci = Some (OfBool b) ->
         forall today : date,
           _is_version_supported fromisoformat ci today = Return (negb b))
  /\ (forall D : date,
         holds_date fromisoformat (eol ci) D ->
         _is_version_supported fromisoformat ci D = Return true
         /\ (forall D' : date,
                next_day D = Some D' ->
                _is_version_supported fromisoformat ci D' = Return false)).
Proof.
  intros Hs.
  assert (Hu : unusable fromisoformat (support ci)) by now left.
  split; [| split].
  - intros He today. now rewrite (supported_by_eol_flag _ _ true today Hu He).
  - intros b He today. now apply supported_by_eol_flag.
  - intros D HD. split.
    + rewrite (supported_by_eol_date _ _ _ _ Hu HD). now rewrite date_le_refl.
    + intros D' Hnext. rewrite (supported_by_eol_date _ _ _ _ Hu HD).
      now rewrite (next_day_not_le _ _ Hnext).
Qed.

Lemma supported_falls_back_to_eol_witness :
  _is_version_supported calendar_fromisoformat eol_on_new_years_eve
    (mkdate 2019 12 31) = Return true
  /\ _is_version_supported calendar_fromisoformat eol_on_new_years_eve
       (mkdate 2020 1 1) = Return false
  /\ _is_version_supported calendar_fromisoformat node_18 (mkdate 2016 2 29)
     = Return false.
Proof.
  destruct (supported_falls_back_to_eol calendar_fromisoformat
              eol_on_new_years_eve eq_refl) as (_ & _ & Hdate).
  destruct (Hdate (mkdate 2019 12 31) (or_introl eq_refl)) as [Hon Hafter].
  destruct (supported_falls_back_to_eol calendar_fromisoformat node_18 eq_refl)
    as (Hflag & _ & _).
  split; [exact Hon |].
  split; [apply Hafter; reflexivity | apply Hflag; reflexivity].
Defined.

(** C7. The evaluator always returns: neither function lets the parser's
    error out. An [eol] string that the parser refuses counts as absent
    ([is_eol = False]); when neither [support] nor [eol] yields a boolean or
    a date, [is_supported = False]. *)
Theorem evaluator_fails_closed (fromisoformat : string -> option datetime)
    (ci : CycleInfo) (today : date) :
  (exists sup e : bool,
      _is_version_supported fromisoformat ci today = Return sup
      /\ _is_version_eol fromisoformat ci today = Return e)
  /\ (forall s : string,
         eol ci = Some (OfStr s) ->
         unparseable fromisoformat s ->
         _is_version_eol fromisoformat ci today = Return false)
  /\ (unusable fromisoformat (support ci) ->
      unusable fromisoformat (eol ci) ->
      _is_version_supported fromisoformat ci today = Return false).
Proof.
  split; [| split].
  - destruct (_is_version_supported_returns fromisoformat ci today) as [sup Hsup].
    destruct (_is_version_eol_returns fromisoformat ci today) as [e He].
    exists sup, e. now split.
  - intros s He Hp. now apply (eol_by_refused_string _ _ s).
  - apply supported_by_nothing.
Qed.

Lemma evaluator_fails_closed_witness :
  _is_version_eol calendar_fromisoformat unknown_dates (mkdate 2025 1 1)
    = Return false
  /\ _is_version_supported calendar_fromisoformat unknown_dates (mkdate 2025 1 1)
    = Return false.
Proof.
  destruct (evaluator_fails_closed calendar_fromisoformat unknown_dates
              (mkdate 2025 1 1)) as (_ & Heol & Hsup).
  split.
  - apply (Heol "Unknown"); reflexivity.
  - apply Hsup; right; [exists "TBD" | exists "Unknown"]; split; reflexivity.
Defined.

(** C9. The two status functions read [eol] and [support] and nothing else:
    records that agree on these two fields get the same pair of answers on
    every day, whatever their [cycle], [lts], [latest], [release_date] and
    [latest_release_date]. *)
Theorem status_ignores_informational_fields
    (fromisoformat : string -> option datetime) (c1 c2 : CycleInfo)
    (today : date) :
  eol c1 = eol c2 ->
  support c1 = support c2 ->
  _is_version_supported fromisoformat c1 today
    = _is_version_supported fromisoformat c2 today
  /\ _is_version_eol fromisoformat c1 today
    = _is_version_eol fromisoformat c2 today.
Proof.
  intros He Hs. unfold _is_version_supported, _is_version_eol.
  rewrite He, Hs. split; reflexivity.
Qed.

Lemma status_ignores_informational_fields_witness :
  lts python_3_11 <> lts python_3_11_annotated
  /\ latest python_3_11 <> latest python_3_11_annotated
  /\ release_date python_3_11 <> release_date python_3_11_annotated
  /\ latest_release_date python_3_11 <> latest_release_date python_3_11_annotated
  /\ _is_version_supported calendar_fromisoformat python_3_11 (mkdate 2025 1 1)
     = _is_version_supported calendar_fromisoformat python_3_11_annotated
         (mkdate 2025 1 1)
  /\ _is_version_eol calendar_fromisoformat python_3_11 (mkdate 2025 1 1)
     = _is_version_eol calendar_fromisoformat python_3_11_annotated
         (mkdate 2025 1 1).
Proof.
  split; [discriminate |].
  split; [discriminate |].
  split; [discriminate |].
  split; [discriminate |].
  apply (status_ignores_informational_fields calendar_fromisoformat
           python_3_11 python_3_11_annotated (mkdate 2025 1 1));
    reflexivity.
Defined.

(** ** More on dates *)

Lemma date_le_trans (a b c : date) :
  date_le a b = true -> date_le b c = true -> date_le a c = true.
Proof.
  rewrite !date_le_spec. unfold date_before. lia.
Qed.

Lemma date_gt_le_trans (a b D : date) :
  date_gt a D = true -> date_le a b = true -> date_gt b D = true.
Proof.
  rewrite !date_gt_spec, date_le_spec. unfold date_before. lia.
Qed.

Lemma date_gt_not_le (a D E : date) :
  date_gt a E = true -> date_le D E = true -> date_le a D = false.
Proof.
  intros Hgt Hle. destruct (date_le a D) eqn:H; [| reflexivity].
  rewrite date_gt_spec in Hgt. rewrite date_le_spec in Hle, H.
  unfold date_before in *. lia.
Qed.

(** ** The evaluator in closed form *)

Ltac parse_cases fromisoformat :=
  unfold end_date_of_str, datetime_fromisoformat, read_field;
  repeat match goal with
         | |- context [fromisoformat ?x] => destruct (fromisoformat x)
         end;
  reflexivity.

Lemma _is_version_eol_read (fromisoformat : string -> option datetime)
    (ci : CycleInfo) (today : date) :
  _is_version_eol fromisoformat ci today
  = Return (match read_field fromisoformat (eol ci) with
            | Absent => false
            | Flag b => b
            | Day D => date_gt today D
            end).
Proof.
  unfold _is_version_eol.
  destruct (eol ci) as [[b | s | d] |]; try reflexivity.
  parse_cases fromisoformat.
Qed.

Lemma _is_version_supported_read (fromisoformat : string -> option datetime)
    (ci : CycleInfo) (today : date) :
  _is_version_supported fromisoformat ci today
  = Return (match read_field fromisoformat (support ci) with
            | Flag b => b
            | Day D => date_le today D
            | Absent =>
                match read_field fromisoformat (eol ci) with
                | Flag b => negb b
                | Day D => date_le today D
                | Absent => false
                end
            end).
Proof.
  unfold _is_version_supported.
  destruct (support ci) as [[b | s | d] |];
    destruct (eol ci) as [[b' | s' | d'] |];
    try reflexivity; parse_cases fromisoformat.
Qed.

(** X1. Both status functions are functions of the two readings alone: the
    parser's error is the same as an absent field, [is_eol] follows the
    reading of [eol], and [is_supported] follows the reading of [support],
    then that of [eol] with the flag turned around, then [False]. *)
Theorem evaluator_closed_form (fromisoformat : string -> option datetime)
    (ci : CycleInfo) (today : date) :
  _is_version_eol fromisoformat ci today
  = Return (match read_field fromisoformat (eol ci) with
            | Absent => false
            | Flag b => b
            | Day D => date_gt today D
            end)
  /\ _is_version_supported fromisoformat ci today
     = Return (match read_field fromisoformat (support ci) with
               | Flag b => b
               | Day D => date_le today D
               | Absent =>
                   match read_field fromisoformat (eol ci) with
                   | Flag b => negb b
                   | Day D => date_le today D
                   | Absent => false
                   end
               end).
Proof.
  split; [apply _is_version_eol_read | apply _is_version_supported_read].
Qed.

(** ** The evaluator over time and across the two fields *)

(** X2. End of life is permanent: a record that is end-of-life on one day is
    end-of-life on every later day. *)
Theorem once_eol_always_eol (fromisoformat : string -> option datetime)
    (ci : CycleInfo) (day1 day2 : date) :
  date_le day1 day2 = true ->
  _is_version_eol fromisoformat ci day1 = Return true ->
  _is_version_eol fromisoformat ci day2 = Return true.
Proof.
  intros Hle. rewrite !_is_version_eol_read.
  destruct (read_field fromisoformat (eol ci)) as [| b | D]; try (intros H; exact H).
  intros [= H]. f_equal. exact (date_gt_le_trans _ _ _ H Hle).
Qed.

Lemma once_eol_always_eol_witness :
  _is_version_eol calendar_fromisoformat python_3_11 (mkdate 2031 2 3)
  = Return true.
Proof.
  apply (once_eol_always_eol calendar_fromisoformat python_3_11
           (mkdate 2027 10 25) (mkdate 2031 2 3)); reflexivity.
Defined.

(** X3. Support is never regained: a record that is supported on one day was
    supported on every earlier day. *)
Theorem supported_on_every_earlier_day
    (fromisoformat : string -> option datetime) (ci : CycleInfo)
    (day1 day2 : date) :
  date_le day1 day2 = true ->
  _is_version_supported fromisoformat ci day2 = Return true ->
  _is_version_supported fromisoformat ci day1 = Return true.
Proof.
  intros Hle. rewrite !_is_version_supported_read.
  destruct (read_field fromisoformat (support ci)) as [| b | D].
  - destruct (read_field fromisoformat (eol ci)) as [| b | D];
      try (intros H; exact H).
    intros [= H]. f_equal. exact (date_le_trans _ _ _ Hle H).
  - intros H; exact H.
  - intros [= H]. f_equal. exact (date_le_trans _ _ _ Hle H).
Qed.

Lemma supported_on_every_earlier_day_witness :
  _is_version_supported calendar_fromisoformat python_3_11 (mkdate 2023 5 17)
  = Return true.
Proof.
  apply (supported_on_every_earlier_day calendar_fromisoformat python_3_11
           (mkdate 2023 5 17) (mkdate 2024 4 1)); reflexivity.
Defined.

(** X4. When [support] says nothing, the two answers are never both true,
    and as soon as [eol] says something they are opposite: the record is
    supported exactly when it is not end-of-life. *)
Theorem without_support_status_mirrors_eol
    (fromisoformat : string -> option datetime) (ci : CycleInfo)
    (today : date) :
  read_field fromisoformat (support ci) = Absent ->
  exists sup e : bool,
    _is_version_supported fromisoformat ci today = Return sup
    /\ _is_version_eol fromisoformat ci today = Return e
    /\ sup && e = false
    /\ (read_field fromisoformat (eol ci) <> Absent -> sup = negb e).
Proof.
  intros Hs. rewrite _is_version_supported_read, _is_version_eol_read, Hs.
  destruct (read_field fromisoformat (eol ci)) as [| b | D].
  - exists false, false.
    split; [reflexivity | split; [reflexivity | split; [reflexivity |]]].
    intros H. now destruct H.
  - exists (negb b), b.
    split; [reflexivity | split; [reflexivity | split; [now destruct b |]]].
    reflexivity.
  - exists (date_le today D), (date_gt today D).
    rewrite date_le_negb_gt.
    split; [reflexivity | split; [reflexivity | split;
      [now destruct (date_gt today D) |]]].
    reflexivity.
Qed.

Lemma without_support_status_mirrors_eol_witness :
  exists sup e : bool,
    _is_version_supported calendar_fromisoformat eol_on_new_years_eve
      (mkdate 2020 3 1) = Return sup
    /\ _is_version_eol calendar_fromisoformat eol_on_new_years_eve
         (mkdate 2020 3 1) = Return e
    /\ sup && e = false
    /\ (read_field calendar_fromisoformat (eol eol_on_new_years_eve) <> Absent ->
        sup = negb e).
Proof.
  apply (without_support_status_mirrors_eol calendar_fromisoformat
           eol_on_new_years_eve (mkdate 2020 3 1)).
  reflexivity.
Defined.

(** X5. When both fields give a day and support ends no later than the end
    of life, an end-of-life record is never reported as supported. *)
Theorem eol_excludes_supported_when_dates_ordered
    (fromisoformat : string -> option datetime) (ci : CycleInfo)
    (S E today : date) :
  read_field fromisoformat (support ci) = Day S ->
  read_field fromisoformat (eol ci) = Day E ->
  date_le S E = true ->
  _is_version_eol fromisoformat ci today = Return true ->
  _is_version_supported fromisoformat ci today = Return false.
Proof.
  intros Hs He Hle.
  rewrite _is_version_supported_read, _is_version_eol_read, Hs, He.
  intros [= H]. f_equal. exact (date_gt_not_le _ _ _ H Hle).
Qed.

Lemma eol_excludes_supported_when_dates_ordered_witness :
  _is_version_supported calendar_fromisoformat python_3_11 (mkdate 2028 1 1)
  = Return false.
Proof.
  apply (eol_excludes_supported_when_dates_ordered calendar_fromisoformat
           python_3_11 (mkdate 2024 4 1) (mkdate 2027 10 24) (mkdate 2028 1 1));
    reflexivity.
Defined.

(** X6. The two fields are evaluated apart, with no check of one against the
    other: a record whose support day lies after its end-of-life day is, on
    the days after the latter and up to the former, both supported and
    end-of-life; so is a record whose two fields are the flag [True]. *)
Theorem fields_are_not_cross_checked
    (fromisoformat : string -> option datetime) (ci : CycleInfo)
    (today : date) :
  (forall S E : date,
      read_field fromisoformat (support ci) = Day S ->
      read_field fromisoformat (eol ci) = Day E ->
      date_before E today ->
      ~ date_before S today ->
      _is_version_supported fromisoformat ci today = Return true
      /\ _is_version_eol fromisoformat ci today = Return true)
  /\ (support ci = Some (OfBool true) ->
      eol ci = Some (OfBool true) ->
      _is_version_supported fromisoformat ci today = Return true
      /\ _is_version_eol fromisoformat ci today = Return true).
Proof.
  split.
  - intros S E Hs He Hafter Hupto.
    rewrite _is_version_supported_read, _is_version_eol_read, Hs, He.
    apply date_gt_spec in Hafter. apply date_le_spec in Hupto.
    now rewrite Hafter, Hupto.
  - intros Hs He.
    rewrite _is_version_supported_read, _is_version_eol_read, Hs, He.
    split; reflexivity.
Qed.

Lemma fields_are_not_cross_checked_witness :
  _is_version_supported calendar_fromisoformat support_outlives_eol
    (mkdate 2025 6 1) = Return true
  /\ _is_version_eol calendar_fromisoformat support_outlives_eol
       (mkdate 2025 6 1) = Return true.
Proof.
  apply (proj1 (fields_are_not_cross_checked calendar_fromisoformat
                  support_outlives_eol (mkdate 2025 6 1))
           (mkdate 2026 1 1) (mkdate 2025 1 1)).
  - reflexivity.
  - reflexivity.
  - unfold date_before. simpl. lia.
  - unfold date_before. simpl. lia.
Defined.

(** ** What the parser is asked *)

Lemma str_has_Z_replace (s : string) :
  str_has "Z" (str_replace "Z" "+00:00" s) = false.
Proof.
  induction s as [| c s IH]; simpl; [reflexivity |].
  destruct (Ascii.eqb c "Z") eqn:E; simpl.
  - exact IH.
  - now rewrite E, IH.
Qed.

Lemma str_replace_without (old : ascii) (new s : string) :
  str_has old s = false -> str_replace old new s = s.
Proof.
  induction s as [| c s IH]; simpl; [reflexivity |].
  intros H. apply orb_false_iff in H as [Hc Hs].
  rewrite Hc. now rewrite IH.
Qed.

Lemma read_field_agree (f g : string -> option datetime)
    (v : option str_date_bool) :
  (forall s : string, str_has "Z" s = false -> f s = g s) ->
  read_field f v = read_field g v.
Proof.
  intros H. destruct v as [[b | s | d] |]; simpl; try reflexivity.
  now rewrite (H _ (str_has_Z_replace s)).
Qed.

(** X7. The parser is only ever handed strings without the letter [Z]
    (every [Z] of the field, not just a trailing one, is replaced first):
    two parsers that agree on such strings give the same two answers on
    every record and day; and a field without [Z] reaches the parser as it
    is. *)
Theorem parser_sees_no_Z (f g : string -> option datetime) :
  (forall s : string, str_has "Z" s = false -> f s = g s) ->
  (forall (ci : CycleInfo) (today : date),
      _is_version_supported f ci today = _is_version_supported g ci today
      /\ _is_version_eol f ci today = _is_version_eol g ci today)
  /\ (forall s : string,
         str_has "Z" s = false ->
         end_date_of_str f s
         = match f s with
           | Some dt => Return (dt_date dt)
           | None => Raise ValueError
           end).
Proof.
  intros H. split.
  - intros ci today.
    rewrite !_is_version_supported_read, !_is_version_eol_read.
    now rewrite !(read_field_agree f g _ H).
  - intros s Hs. unfold end_date_of_str, datetime_fromisoformat.
    rewrite (str_replace_without _ _ _ Hs). now destruct (f s).
Qed.

Lemma parser_sees_no_Z_witness :
  _is_version_eol calendar_fromisoformat python_3_11 (mkdate 2030 1 1)
  = _is_version_eol
      (fun s => if str_has "Z" s then None else calendar_fromisoformat s)
      python_3_11 (mkdate 2030 1 1).
Proof.
  apply (proj1 (parser_sees_no_Z calendar_fromisoformat
                  (fun s => if str_has "Z" s then None
                            else calendar_fromisoformat s)
                  (fun s Hs => eq_sym (f_equal
                     (fun b : bool => if b then None
                                      else calendar_fromisoformat s) Hs)))
           python_3_11 (mkdate 2030 1 1)).
Defined.

(** ** More on the resolver and the service *)

(** X8. The first test of the loop never decides alone: a cycle equal to the
    requested version also starts with it, so a record passes the test
    exactly when its [latest] equals the version or its cycle starts with
    the version. *)
Theorem exact_rule_is_subsumed_by_prefix (version : string) (c : CycleInfo) :
  (cycle c = version -> startswith (cycle c) version = true)
  /\ (cycle_matches version c = true
      <-> latest c = Some version \/ startswith (cycle c) version = true).
Proof.
  assert (H : cycle c = version -> startswith (cycle c) version = true).
  { intros <-. apply startswith_self. }
  split; [exact H |].
  rewrite cycle_matches_true_iff. split.
  - intros [E | [E | E]]; auto.
  - intros [E | E]; auto.
Qed.

Lemma exact_rule_is_subsumed_by_prefix_witness :
  startswith (cycle release_3_1) "3.1" = true.
Proof.
  apply (proj1 (exact_rule_is_subsumed_by_prefix "3.1" release_3_1)).
  reflexivity.
Defined.

Lemma found_status_value (fromisoformat : string -> option datetime)
    (product version : string) (c : CycleInfo) (today : date) :
  found_status fromisoformat product version c today
  = Return (mkSupportStatus product version true (Some c)
              (match read_field fromisoformat (support c) with
               | Flag b => b
               | Day D => date_le today D
               | Absent =>
                   match read_field fromisoformat (eol c) with
                   | Flag b => negb b
                   | Day D => date_le today D
                   | Absent => false
                   end
               end)
              (match read_field fromisoformat (eol c) with
               | Absent => false
               | Flag b => b
               | Day D => date_gt today D
               end)).
Proof.
  unfold found_status.
  now rewrite _is_version_supported_read, _is_version_eol_read.
Qed.

Lemma get_cycle_details_Return (self : EndOfLifeClient)
    (product cycle_id : string) (cd : CycleDetails) :
  get_cycle_details self product cycle_id = Return cd ->
  cd_product cd = product /\ cd_cycle cd = cycle_id
  /\ cycle (details cd) = cycle_id
  /\ exists m : gmap string value,
       _client self (base_url self +:+ "/" +:+ product +:+ "/" +:+ cycle_id
                     +:+ ".json") = Return (DocMapping m)
       /\ m !! "cycle" = None
       /\ CycleInfo_init (<["cycle" := VStr cycle_id]> m) = Return (details cd).
Proof.
  unfold get_cycle_details. rewrite log_and_reraise_id.
  destruct (_client self _) as [[items | m] | e]; simpl; try discriminate.
  destruct (m !! "cycle") eqn:Hm; simpl; [discriminate |].
  destruct (CycleInfo_init _) as [ci | e] eqn:Hci; simpl; [| discriminate].
  intros [= <-]. simpl.
  pose proof (CycleInfo_init_cycle _ _ Hci) as Hc.
  rewrite lookup_insert_eq in Hc. injection Hc as Hc.
  repeat split; auto. exists m. auto.
Qed.

Lemma check_support_status_direct (fromisoformat : string -> option datetime)
    (self : EndOfLifeClient) (product version : string) (today : date)
    (cd : CycleDetails) :
  get_cycle_details self product version = Return cd ->
  check_support_status fromisoformat self product version today
  = found_status fromisoformat product version (details cd) today.
Proof.
  intros H. unfold check_support_status.
  rewrite log_and_reraise_id, H. simpl.
  rewrite found_status_value. reflexivity.
Qed.

Lemma exn_404_or_not (e : exn) :
  e = HTTPStatusError 404 \/ e <> HTTPStatusError 404.
Proof.
  destruct e as [| | | code |]; try (right; discriminate).
  destruct (Z.eq_dec code 404) as [-> | Hne]; [now left | right; congruence].
Qed.

Lemma check_support_status_reraise (fromisoformat : string -> option datetime)
    (self : EndOfLifeClient) (product version : string) (today : date)
    (e : exn) :
  get_cycle_details self product version = Raise e ->
  e <> HTTPStatusError 404 ->
  check_support_status fromisoformat self product version today = Raise e.
Proof.
  intros H Hne. unfold check_support_status.
  rewrite log_and_reraise_id, H. simpl.
  destruct e as [| | | code |]; simpl; try reflexivity.
  destruct code as [| p | p]; try reflexivity.
  repeat (destruct p as [p | p |]; try reflexivity).
  now destruct Hne.
Qed.

(** X9. Whatever [check_support_status] returns echoes the product and the
    version asked for, and is of one of two shapes: found, with a record
    that satisfies one of the three rules and the two answers the status
    functions give on that record; or not found, with no record,
    unsupported and end-of-life. *)
Theorem support_status_is_well_formed
    (fromisoformat : string -> option datetime) (self : EndOfLifeClient)
    (product version : string) (today : date) (st : SupportStatus) :
  check_support_status fromisoformat self product version today = Return st ->
  ss_product st = product /\ ss_version st = version
  /\ ((found st = true
       /\ exists c : CycleInfo,
            cycle_info st = Some c
            /\ (cycle c = version \/ latest c = Some version
                \/ startswith (cycle c) version = true)
            /\ _is_version_supported fromisoformat c today
               = Return (is_supported st)
            /\ _is_version_eol fromisoformat c today = Return (is_eol st))
      \/ (found st = false /\ cycle_info st = None
          /\ is_supported st = false /\ is_eol st = true)).
Proof.
  destruct (get_cycle_details self product version) as [cd | e] eqn:Hd.
  - rewrite (check_support_status_direct _ _ _ _ _ _ Hd), found_status_value.
    intros [= <-]. simpl. repeat split. left. split; [reflexivity |].
    exists (details cd). split; [reflexivity |].
    rewrite _is_version_supported_read, _is_version_eol_read.
    destruct (get_cycle_details_Return _ _ _ _ Hd) as (_ & _ & Hc & _). auto.
  - destruct (exn_404_or_not e) as [-> | Hne].
    + rewrite (check_support_status_after_404 _ _ _ _ _ Hd).
      destruct (get_product_versions self product) as [pinfo | e'];
        simpl; [| discriminate].
      destruct (first_matching_cycle version (versions pinfo)) as [c |] eqn:Hf.
      * rewrite found_status_value. intros [= <-]. simpl.
        repeat split. left. split; [reflexivity |].
        exists c. split; [reflexivity |].
        rewrite _is_version_supported_read, _is_version_eol_read.
        destruct (first_matching_cycle_Some _ _ _ Hf) as (_ & _ & _ & _ & Hm).
        apply cycle_matches_true_iff in Hm. auto.
      * intros [= <-]. simpl. repeat split. right. auto.
    + rewrite (check_support_status_reraise _ _ _ _ _ _ Hd Hne). discriminate.
Qed.

Lemma support_status_is_well_formed_witness :
  ss_product (mkSupportStatus "nodejs" "2" true (Some node_22) true false)
  = "nodejs".
Proof.
  apply (support_status_is_well_formed calendar_fromisoformat
           (table_client nodejs_catalog) "nodejs" "2" (mkdate 2025 1 1)
           (mkSupportStatus "nodejs" "2" true (Some node_22) true false)).
  vm_compute. reflexivity.
Defined.

(** X10. When the single-cycle document is there, it decides: the status is
    found, the record reported carries the requested version as its cycle,
    and the product's list plays no part. *)
Theorem direct_hit_reports_requested_cycle
    (fromisoformat : string -> option datetime) (self : EndOfLifeClient)
    (product version : string) (today : date) (cd : CycleDetails) :
  get_cycle_details self product version = Return cd ->
  cycle (details cd) = version
  /\ exists sup e : bool,
       check_support_status fromisoformat self product version today
       = Return (mkSupportStatus product version true (Some (details cd)) sup e).
Proof.
  intros Hd. split.
  - now destruct (get_cycle_details_Return _ _ _ _ Hd) as (_ & _ & Hc & _).
  - rewrite (check_support_status_direct _ _ _ _ _ _ Hd).
    apply found_status_returns.
Qed.

Lemma direct_hit_reports_requested_cycle_witness :
  cycle node_22 = "22"
  /\ exists sup e : bool,
       check_support_status calendar_fromisoformat
         (table_client nodejs_22_document) "nodejs" "22" (mkdate 2026 1 1)
       = Return (mkSupportStatus "nodejs" "22" true (Some node_22) sup e).
Proof.
  apply (direct_hit_reports_requested_cycle calendar_fromisoformat
           (table_client nodejs_22_document) "nodejs" "22" (mkdate 2026 1 1)
           (mkCycleDetails "nodejs" "22" node_22)).
  vm_compute. reflexivity.
Defined.

(** X11. Only a 404 sends the lookup to the product's list: any other
    failure of the single-cycle lookup (another HTTP status, a transport
    failure, a record that does not validate) is raised again as it is. *)
Theorem only_404_falls_back_to_the_list
    (fromisoformat : string -> option datetime) (self : EndOfLifeClient)
    (product version : string) (today : date) (e : exn) :
  get_cycle_details self product version = Raise e ->
  e <> HTTPStatusError 404 ->
  check_support_status fromisoformat self product version today = Raise e.
Proof. apply check_support_status_reraise. Qed.

Lemma only_404_falls_back_to_the_list_witness :
  check_support_status calendar_fromisoformat server_error_client
    "nodejs" "22" (mkdate 2026 1 1)
  = Raise (HTTPStatusError 503).
Proof.
  apply (only_404_falls_back_to_the_list calendar_fromisoformat
           server_error_client "nodejs" "22" (mkdate 2026 1 1)
           (HTTPStatusError 503)).
  - reflexivity.
  - discriminate.
Defined.

(** X12. A product the catalog does not know is an error, not a "not found"
    result: when the single-cycle document answers 404 and fetching the
    product's list fails, [check_support_status] raises the failure of the
    list, 404 included. *)
Theorem unknown_product_is_an_error
    (fromisoformat : string -> option datetime) (self : EndOfLifeClient)
    (product version : string) (today : date) (e : exn) :
  get_cycle_details self product version = Raise (HTTPStatusError 404) ->
  _client self (base_url self +:+ "/" +:+ product +:+ ".json") = Raise e ->
  get_product_versions self product = Raise e
  /\ check_support_status fromisoformat self product version today = Raise e.
Proof.
  intros H404 Hlist.
  assert (Hp : get_product_versions self product = Raise e).
  { unfold get_product_versions. now rewrite log_and_reraise_id, Hlist. }
  split; [exact Hp |].
  rewrite (check_support_status_after_404 _ _ _ _ _ H404). now rewrite Hp.
Qed.

Lemma unknown_product_is_an_error_witness :
  check_support_status calendar_fromisoformat (table_client nodejs_catalog)
    "no-such-product" "1.0" (mkdate 2026 1 1)
  = Raise (HTTPStatusError 404).
Proof.
  apply (proj2 (unknown_product_is_an_error calendar_fromisoformat
                  (table_client nodejs_catalog) "no-such-product" "1.0"
                  (mkdate 2026 1 1) (HTTPStatusError 404)
                  ltac:(vm_compute; reflexivity)
                  ltac:(vm_compute; reflexivity))).
Defined.

(** X13. [get_cycle_details] answers under the names it was asked with: a
    result carries the product and the cycle of the call, also inside the
    record; and a document that brings a [cycle] key of its own never gives
    a result, the call fails with a TypeError. *)
Theorem cycle_details_carry_the_requested_cycle (self : EndOfLifeClient)
    (product cycle_id : string) :
  (forall cd : CycleDetails,
      get_cycle_details self product cycle_id = Return cd ->
      cd_product cd = product /\ cd_cycle cd = cycle_id
      /\ cycle (details cd) = cycle_id)
  /\ (forall (m : gmap string value) (v : value),
         _client self (base_url self +:+ "/" +:+ product +:+ "/" +:+ cycle_id
                       +:+ ".json") = Return (DocMapping m) ->
         m !! "cycle" = Some v ->
         get_cycle_details self product cycle_id = Raise TypeError).
Proof.
  split.
  - intros cd Hd.
    destruct (get_cycle_details_Return _ _ _ _ Hd) as (H1 & H2 & H3 & _). auto.
  - intros m v Hdoc Hm. unfold get_cycle_details.
    rewrite log_and_reraise_id, Hdoc. simpl. now rewrite Hm.
Qed.

Lemma cycle_details_carry_the_requested_cycle_witness :
  get_cycle_details (table_client nodejs_22_with_cycle_key) "nodejs" "22"
  = Raise TypeError.
Proof.
  apply (proj2 (cycle_details_carry_the_requested_cycle
                  (table_client nodejs_22_with_cycle_key) "nodejs" "22")
           raw_node_22 (VStr "22")).
  - vm_compute. reflexivity.
  - vm_compute. reflexivity.
Defined.

(** X14. The two ways to a record agree on a consistent catalog: when the
    single-cycle document is the list entry without its [cycle] key,
    [get_cycle_details] returns the very record that the listing builds from
    the entry. *)
Theorem direct_lookup_agrees_with_listing (self : EndOfLifeClient)
    (product cycle_id : string) (raw : gmap string value) (c : CycleInfo) :
  raw !! "cycle" = Some (VStr cycle_id) ->
  CycleInfo_init raw = Return c ->
  _client self (base_url self +:+ "/" +:+ product +:+ "/" +:+ cycle_id
                +:+ ".json") = Return (DocMapping (delete "cycle" raw)) ->
  get_cycle_details self product cycle_id
  = Return (mkCycleDetails product cycle_id c).
Proof.
  intros Hraw Hc Hdoc. unfold get_cycle_details.
  rewrite log_and_reraise_id, Hdoc. simpl.
  rewrite lookup_delete_eq, insert_delete_eq, (insert_id _ _ _ Hraw), Hc.
  reflexivity.
Qed.

Lemma direct_lookup_agrees_with_listing_witness :
  get_cycle_details (table_client nodejs_22_document) "nodejs" "22"
  = Return (mkCycleDetails "nodejs" "22" node_22).
Proof.
  apply (direct_lookup_agrees_with_listing (table_client nodejs_22_document)
           "nodejs" "22" raw_node_22 node_22).
  - vm_compute. reflexivity.
  - vm_compute. reflexivity.
  - vm_compute. reflexivity.
Defined.

(** ** More on the listing *)

Lemma Forall2_built_cycle (items : list (gmap string value))
    (built : list CycleInfo) :
  Forall2 (fun raw c => CycleInfo_init raw = Return c) items built ->
  Forall2 (fun raw c => raw !! "cycle" = Some (VStr (cycle c))
                        /\ CycleInfo_init raw = Return c) items built.
Proof.
  induction 1 as [| raw c items built Hc _ IH]; constructor; auto.
  split; [now apply CycleInfo_init_cycle | exact Hc].
Qed.

(** X15. A listing that succeeds loses nothing and adds nothing: it names
    the product asked for, [count] is the number of records, there is one
    record per raw mapping, in the order of the document, and each record's
    cycle is the string under its mapping's [cycle] key. *)
Theorem listing_keeps_every_record_in_order (self : EndOfLifeClient)
    (product : string) (items : list (gmap string value))
    (pinfo : ProductInfo) :
  _client self (base_url self +:+ "/" +:+ product +:+ ".json")
    = Return (DocList items) ->
  get_product_versions self product = Return pinfo ->
  pi_product pinfo = product
  /\ pi_count pinfo = Z.of_nat (length (versions pinfo))
  /\ length (versions pinfo) = length items
  /\ Forall2 (fun raw c => raw !! "cycle" = Some (VStr (cycle c))
                           /\ CycleInfo_init raw = Return c)
       items (versions pinfo).
Proof.
  intros Hdoc. unfold get_product_versions.
  rewrite log_and_reraise_id, Hdoc. simpl.
  destruct (append_cycles [] items) as [cs | e] eqn:Ha; simpl; [| discriminate].
  intros [= <-]. simpl.
  destruct (append_cycles_Return _ _ _ Ha) as (built & -> & Hb). simpl.
  repeat split.
  - symmetry. exact (Forall2_length _ _ _ Hb).
  - now apply Forall2_built_cycle.
Qed.

Lemma listing_keeps_every_record_in_order_witness :
  pi_count (mkProductInfo "nodejs" [node_22; node_18] 2)
  = Z.of_nat (length (versions (mkProductInfo "nodejs" [node_22; node_18] 2))).
Proof.
  apply (listing_keeps_every_record_in_order (table_client nodejs_catalog)
           "nodejs" [raw_node_22; raw_node_18]
           (mkProductInfo "nodejs" [node_22; node_18] 2)).
  - vm_compute. reflexivity.
  - vm_compute. reflexivity.
Defined.

(** X16. A JSON object where the list of cycles is expected: the loop runs
    over its keys, so the empty object is read as a product without
    versions, and any other object makes the listing fail with a
    TypeError. *)
Theorem listing_of_a_mapping (self : EndOfLifeClient) (product : string)
    (m : gmap string value) :
  _client self (base_url self +:+ "/" +:+ product +:+ ".json")
    = Return (DocMapping m) ->
  (m = ∅ -> get_product_versions self product
            = Return (mkProductInfo product [] 0))
  /\ (m <> ∅ -> get_product_versions self product = Raise TypeError).
Proof.
  intros Hdoc. unfold get_product_versions.
  rewrite log_and_reraise_id, Hdoc. simpl.
  split; intros Hm; destruct (decide (m = ∅)) as [E | E]; try reflexivity;
    contradiction.
Qed.

Lemma listing_of_a_mapping_witness :
  get_product_versions (table_client empty_object_catalog) "nodejs"
  = Return (mkProductInfo "nodejs" [] 0).
Proof.
  apply (proj1 (listing_of_a_mapping (table_client empty_object_catalog)
                  "nodejs" ∅ ltac:(vm_compute; reflexivity))).
  reflexivity.
Defined.

(** X17. Keys that name no field and no alias do not matter to the
    construction of a record: adding one to the keyword arguments, with any
    value, changes neither the record nor the failure. *)
Theorem unknown_keys_are_ignored (kwargs : gmap string value) (key : string)
    (v : value) :
  ~ In key CycleInfo_keys ->
  CycleInfo_init (<[key := v]> kwargs) = CycleInfo_init kwargs.
Proof.
  intros Hk.
  assert (Hl : forall k : string,
             In k CycleInfo_keys -> <[key := v]> kwargs !! k = kwargs !! k).
  { intros k Hin. apply lookup_insert_ne. intros ->. now apply Hk. }
  unfold CycleInfo_init, by_alias_or_name.
  rewrite (Hl "cycle"), (Hl "releaseDate"), (Hl "release_date"), (Hl "eol"),
    (Hl "latest"), (Hl "latestReleaseDate"), (Hl "latest_release_date"),
    (Hl "lts"), (Hl "support")
    by (unfold CycleInfo_keys; simpl; tauto).
  reflexivity.
Qed.

Lemma unknown_keys_are_ignored_witness :
  CycleInfo_init (<["link" := VStr "https://nodejs.org"]> raw_node_22)
  = CycleInfo_init raw_node_22.
Proof.
  apply (unknown_keys_are_ignored raw_node_22 "link"
           (VStr "https://nodejs.org")).
  unfold CycleInfo_keys. simpl.
  intros [H | [H | [H | [H | [H | [H | [H | [H | [H | []]]]]]]]]];
    discriminate H.
Defined.

(** ** The search *)

Lemma prefix_empty (s : string) : String.prefix "" s = true.
Proof. now destruct s. Qed.

Lemma str_contains_empty (s : string) : str_contains s "" = true.
Proof. destruct s; reflexivity. Qed.

Lemma str_contains_self (s : string) : str_contains s s = true.
Proof.
  destruct s as [| c s]; [reflexivity |].
  cbn [str_contains]. fold (startswith (String c s) (String c s)).
  now rewrite startswith_self.
Qed.

Lemma filter_sublist {A : Type} (f : A -> bool) (l : list A) :
  sublist (List.filter f l) l.
Proof.
  induction l as [| x l IH]; simpl; [constructor |].
  destruct (f x); now constructor.
Qed.

Lemma search_products_unfold (lower : string -> string) (self : CatalogClient)
    (query : string) :
  search_products lower self query
  = match names_json self (base_url (cycles self) +:+ "/all.json") with
    | Return names =>
        Return (mkSearchResult
                  (List.filter
                     (fun product => str_contains (lower product) (lower query))
                     names)
                  (Z.of_nat (length
                     (List.filter
                        (fun product => str_contains (lower product) (lower query))
                        names)))
                  query)
    | Raise e => Raise e
    end.
Proof.
  unfold search_products, get_all_products. rewrite !log_and_reraise_id.
  now destruct (names_json self _).
Qed.

(** X18. The search does not see the case of the query: two queries with the
    same lower-case form get the same products and the same count, each
    under its own query string. *)
Theorem search_ignores_case_of_query (lower : string -> string)
    (self : CatalogClient) (query1 query2 : string) (r : SearchResult) :
  lower query1 = lower query2 ->
  search_products lower self query1 = Return r ->
  search_products lower self query2
  = Return (mkSearchResult (results r) (sr_count r) query2).
Proof.
  intros Hq. rewrite !search_products_unfold, Hq.
  destruct (names_json self _); [| discriminate].
  now intros [= <-].
Qed.

Lemma search_ignores_case_of_query_witness :
  search_products str_lower sample_catalog_client "PyThOn"
  = Return (mkSearchResult ["python"; "Python-Django"] 2 "PyThOn").
Proof.
  apply (search_ignores_case_of_query str_lower sample_catalog_client
           "python" "PyThOn"
           (mkSearchResult ["python"; "Python-Django"] 2 "python")).
  - reflexivity.
  - vm_compute. reflexivity.
Defined.

(** X19. What a search returns: the query as it was given, a count equal to
    the number of results, and as results exactly the products of the
    catalog whose lower-case name contains the lower-case query, in the
    catalog's order; never more than the catalog has. *)
Theorem search_returns_the_matching_products (lower : string -> string)
    (self : CatalogClient) (query : string) (r : SearchResult) :
  search_products lower self query = Return r ->
  sr_query r = query
  /\ sr_count r = Z.of_nat (length (results r))
  /\ exists every : AllProductsResult,
       get_all_products self = Return every
       /\ apr_count every = Z.of_nat (length (products every))
       /\ sublist (results r) (products every)
       /\ sr_count r <= apr_count every
       /\ (forall product : string,
              In product (results r)
              <-> In product (products every)
                  /\ str_contains (lower product) (lower query) = true).
Proof.
  rewrite search_products_unfold. unfold get_all_products.
  rewrite log_and_reraise_id.
  destruct (names_json self _) as [names | e]; [| discriminate].
  intros [= <-]. simpl.
  split; [reflexivity | split; [reflexivity |]].
  eexists. split; [reflexivity |]. simpl.
  split; [reflexivity |].
  split; [apply filter_sublist |].
  split; [apply inj_le, sublist_length, filter_sublist |].
  intros product.
  exact (List.filter_In
           (fun p : string => str_contains (lower p) (lower query)) product names).
Qed.

Lemma search_returns_the_matching_products_witness :
  sr_query (mkSearchResult ["nodejs"] 1 "node") = "node".
Proof.
  apply (search_returns_the_matching_products str_lower sample_catalog_client
           "node" (mkSearchResult ["nodejs"] 1 "node")).
  vm_compute. reflexivity.
Defined.

(** X20. Two searches that always hit: a product of the catalog is among the
    results of the search for its own name; and, [lower] keeping the empty
    string empty, the empty query returns the whole catalog. *)
Theorem search_finds_own_name_and_everything (lower : string -> string)
    (self : CatalogClient) (every : AllProductsResult) :
  get_all_products self = Return every ->
  (forall product : string,
      In product (products every) ->
      exists r : SearchResult,
        search_products lower self product = Return r
        /\ In product (results r))
  /\ (lower "" = "" ->
      search_products lower self ""
      = Return (mkSearchResult (products every) (apr_count every) "")).
Proof.
  unfold get_all_products. rewrite log_and_reraise_id.
  destruct (names_json self _) as [names | e] eqn:Hn; [| discriminate].
  intros [= <-]. simpl. split.
  - intros product Hin. rewrite search_products_unfold, Hn.
    eexists. split; [reflexivity |]. simpl.
    apply (List.filter_In
             (fun p : string => str_contains (lower p) (lower product))).
    split; [exact Hin | apply str_contains_self].
  - intros Hl. rewrite search_products_unfold, Hn, Hl.
    assert (Hall : List.filter (fun product => str_contains (lower product) "")
                     names = names).
    { clear Hn. induction names as [| x names IH]; simpl; [reflexivity |].
      now rewrite str_contains_empty, IH. }
    now rewrite Hall.
Qed.

Lemma search_finds_own_name_and_everything_witness :
  search_products str_lower sample_catalog_client ""
  = Return (mkSearchResult sample_names 4 "").
Proof.
  apply (proj2 (search_finds_own_name_and_everything str_lower
                  sample_catalog_client (mkAllProductsResult sample_names 4)
                  ltac:(vm_compute; reflexivity))).
  reflexivity.
Defined.

(** ** The tool surface *)

Lemma dump_of_not_value_error {A : Type} (r : Exc A) (dump : A -> json_text)
    (msg : string) :
  dump_of r dump <> Failed (ValueErrorWith msg).
Proof. destruct r; discriminate. Qed.

Lemma call_tool_body_unknown (fromisoformat : string -> option datetime)
    (lower : string -> string) (client : CatalogClient) (name : string)
    (arguments : gmap string string) (today : date) :
  ~ In name (map tool_name handle_list_tools) ->
  call_tool_body fromisoformat lower client name arguments today
  = Failed (ValueErrorWith ("Unknown tool: " +:+ name)).
Proof.
  intros Hn. unfold call_tool_body.
  repeat match goal with
         | |- context [String.eqb name ?t] =>
             destruct (String.eqb_spec name t) as [-> | _];
             [exfalso; apply Hn; simpl; tauto |]
         end.
  reflexivity.
Qed.

Lemma call_tool_body_listed (fromisoformat : string -> option datetime)
    (lower : string -> string) (client : CatalogClient) (name : string)
    (arguments : gmap string string) (today : date) :
  In name (map tool_name handle_list_tools) ->
  call_tool_body fromisoformat lower client name arguments today
  <> Failed (ValueErrorWith ("Unknown tool: " +:+ name)).
Proof.
  simpl. intros [<- | [<- | [<- | [<- | [<- | []]]]]];
    unfold call_tool_body; simpl;
    repeat match goal with
           | |- context [given arguments ?k] => destruct (given arguments k)
           end;
    try apply dump_of_not_value_error; discriminate.
Qed.

(** X21. The tools that [handle_list_tools] announces are exactly the names
    that [handle_call_tool] serves: a call gets the "Unknown tool" error
    text if and only if its name is not in the list. *)
Theorem listed_tools_are_the_served_tools
    (fromisoformat : string -> option datetime) (lower : string -> string)
    (client : CatalogClient) (name : string) (arguments : gmap string string)
    (today : date) :
  handle_call_tool fromisoformat lower (Some client) name arguments today
  = Done [mkTextContent "text"
            (DumpError (ValueErrorWith ("Unknown tool: " +:+ name))
               name arguments)]
  <-> ~ In name (map tool_name handle_list_tools).
Proof.
  unfold handle_call_tool. split.
  - intros H Hin.
    apply (call_tool_body_listed fromisoformat lower client name arguments today
             Hin).
    destruct (call_tool_body _ _ _ _ _ _) as [text | f] eqn:Hb.
    + injection H as H.
      pose proof Hin as Hin'. simpl in Hin'.
      destruct Hin' as [<- | [<- | [<- | [<- | [<- | []]]]]];
        unfold call_tool_body in Hb; simpl in Hb;
        repeat match type of Hb with
               | context [given arguments ?k] => destruct (given arguments k)
               end;
        try discriminate Hb;
        match type of Hb with
        | dump_of ?r _ = _ => destruct r; simpl in Hb
        end;
        try discriminate Hb; injection Hb as <-; discriminate H.
    + now injection H as ->.
  - intros Hn. now rewrite (call_tool_body_unknown _ _ _ _ _ _ Hn).
Qed.



(** ** The date helper of the temporal test *)

(** X23. [parse_date_safely] never raises, gives no date for null, a
    boolean, the empty string and "Unknown", and when it gives a day for a
    record's [eol] or [support] string, the status functions use that very
    day: the record is end-of-life exactly on the days after the [eol] day,
    and unsupported on the days after the [support] day, so the three rules
    of the temporal test cannot flag it. *)
Theorem parse_date_safely_agrees_with_status
    (fromisoformat : string -> option datetime) (ci : CycleInfo)
    (today : date) :
  (forall v : json_scalar,
      exists o : option date, parse_date_safely fromisoformat v = Return o)
  /\ (forall b : bool,
         parse_date_safely fromisoformat JNull = Return None
         /\ parse_date_safely fromisoformat (JBool b) = Return None
         /\ parse_date_safely fromisoformat (JString "") = Return None
         /\ parse_date_safely fromisoformat (JString "Unknown") = Return None)
  /\ (forall (s : string) (D : date),
         eol ci = Some (OfStr s) ->
         parse_date_safely fromisoformat (JString s) = Return (Some D) ->
         (date_before D today ->
          _is_version_eol fromisoformat ci today = Return true)
         /\ (~ date_before D today ->
             _is_version_eol fromisoformat ci today = Return false))
  /\ (forall (s : string) (S : date),
         support ci = Some (OfStr s) ->
         parse_date_safely fromisoformat (JString s) = Return (Some S) ->
         date_before S today ->
         _is_version_supported fromisoformat ci today = Return false).
Proof.
  assert (Hparse : forall (s : string) (D : date),
             parse_date_safely fromisoformat (JString s) = Return (Some D) ->
             read_field fromisoformat (Some (OfStr s)) = Day D).
  { intros s D. unfold parse_date_safely, end_date_of_str,
      datetime_fromisoformat, read_field.
    destruct (String.eqb s "" || String.eqb s "Unknown"); [discriminate |].
    destruct (fromisoformat _); simpl; [| discriminate].
    now intros [= <-]. }
  split; [| split; [| split]].
  - intros [| [|] | s]; simpl; eauto.
    destruct (String.eqb s "" || String.eqb s "Unknown"); eauto.
    destruct (end_date_of_str_cases fromisoformat s) as [[D ->] | ->];
      simpl; eauto.
  - intros b. repeat split; try reflexivity. now destruct b.
  - intros s D He Hp. rewrite _is_version_eol_read, He, (Hparse _ _ Hp).
    split; intros H.
    + apply date_gt_spec in H. now rewrite H.
    + destruct (date_gt today D) eqn:E; [| reflexivity].
      apply date_gt_spec in E. contradiction.
  - intros s S Hs Hp H.
    rewrite _is_version_supported_read, Hs, (Hparse _ _ Hp).
    destruct (date_le today S) eqn:E; [| reflexivity].
    apply date_le_spec in E. contradiction.
Qed.

Lemma parse_date_safely_agrees_with_status_witness :
  _is_version_supported calendar_fromisoformat python_3_11 (mkdate 2025 1 1)
  = Return false.
Proof.
  destruct (parse_date_safely_agrees_with_status calendar_fromisoformat
              python_3_11 (mkdate 2025 1 1)) as (_ & _ & _ & H).
  apply (H "2024-04-01" (mkdate 2024 4 1)).
  - reflexivity.
  - reflexivity.
  - unfold date_before. simpl. lia.
Defined.
